(** * Adax climate platform: the cloud client and the polled device

    A shallow embedding of [custom_components/adax2/climate.py]: the
    [AdaxAPI] client (token refresh, room listing, set-point request) and
    the [AdaxClimate] entity (construction, [set_temperature], [update]).

    Python values are an inductive type, floats are IEEE binary64 numbers
    of the standard library's [SpecFloat], exceptions are an explicit
    outcome, and the program state (the client object shared by all
    devices, and the trace of log lines and network calls) is threaded
    through a state-and-exception monad. *)

From Stdlib Require Import ZArith List String Ascii Bool Lia.
From Stdlib Require Import Floats.SpecFloat.
Import ListNotations.

Set Warnings "-register-all".
Local Open Scope string_scope.
Local Open Scope Z_scope.

(** ** Python values and builtins *)

Module Py.

(** Python's [float] is IEEE 754 binary64. *)
Definition prec : Z := 53.
Definition emax : Z := 1024.
Definition float : Type := spec_float.

Definition fmul : float -> float -> float := SFmul prec emax.
Definition fdiv : float -> float -> float := SFdiv prec emax.

(** int -> float conversion, round to nearest even; an integer beyond the
    range comes out as an infinity here and is refused by [float_of_int]. *)
Definition float_of_Z (z : Z) : float := binary_normalize prec emax z 0 false.

(** The exceptions the modelled code can meet; all are subclasses of
    [Exception].  [LibraryError] stands for whatever the transport or
    OAuth library raises. *)
Inductive exn : Type :=
| AttributeError
| TypeError
| ValueError
| OverflowError
| LibraryError (what : string).

Inductive outcome (A : Type) : Type :=
| Return (a : A)
| Raise (e : exn).
Arguments Return {A} a.
Arguments Raise {A} e.

(** The values that JSON decoding and keyword arguments deliver.  A dict
    is the list of its items in insertion order. *)
Inductive value : Type :=
| VNone
| VBool (b : bool)
| VInt (z : Z)
| VFloat (f : float)
| VStr (s : string)
| VList (items : list value)
| VDict (items : list (string * value)).

(** [d.get(key, default)] on the items of a dict. *)
Fixpoint dict_get (items : list (string * value)) (key : string) (default : value) : value :=
  match items with
  | [] => default
  | (k, v) :: rest => if String.eqb k key then v else dict_get rest key default
  end.

(** [key in d] on the items of a dict. *)
Fixpoint dict_contains (items : list (string * value)) (key : string) : bool :=
  match items with
  | [] => false
  | (k, _) :: rest => String.eqb k key || dict_contains rest key
  end.

(** Truth value of a string-or-None, as [not self._token] tests it. *)
Definition truthy (o : option string) : bool :=
  match o with
  | Some s => negb (String.eqb s "")
  | None => false
  end.

(** Exact comparison of a float with an integer. *)
Definition float_eq_Z (f : float) (z : Z) : bool :=
  match f with
  | S754_zero _ => z =? 0
  | S754_finite s m e =>
      let v := if s then Zneg m else Zpos m in
      if 0 <=? e then z =? v * 2 ^ e else z * 2 ^ (- e) =? v
  | _ => false
  end.

Inductive number : Type :=
| NInt (z : Z)
| NFloat (f : float).

Definition as_number (v : value) : option number :=
  match v with
  | VBool b => Some (NInt (if b then 1 else 0))
  | VInt z => Some (NInt z)
  | VFloat f => Some (NFloat f)
  | _ => None
  end.

Definition number_eq (a b : number) : bool :=
  match a, b with
  | NInt x, NInt y => x =? y
  | NFloat f, NFloat g => SFeqb f g
  | NFloat f, NInt y => float_eq_Z f y
  | NInt x, NFloat g => float_eq_Z g x
  end.

(** Is the value the float NaN? *)
Definition is_nan (v : value) : bool :=
  match v with
  | VFloat S754_nan => true
  | _ => false
  end.

(** Python's [==]: numbers (bool included) compare by value, strings,
    lists and dicts structurally, None only equals None.

    Lists and dicts compare their elements with [x is y or x == y].  Of
    the values met here only NaN is unequal to itself, so identity
    matters for NaN alone; [same_nan] tells whether the NaNs of the two
    operands are one object.  The operator itself has no such shortcut:
    a bare [nan == nan] is False. *)
Fixpoint py_eq_with (same_nan : bool) (a b : value) {struct a} : bool :=
  match a, b with
  | VNone, VNone => true
  | VStr s, VStr t => String.eqb s t
  | VList xs, VList ys =>
      (fix all2 (xs ys : list value) {struct xs} : bool :=
         match xs, ys with
         | [], [] => true
         | x :: xs', y :: ys' =>
             ((same_nan && is_nan x && is_nan y) || py_eq_with same_nan x y)
             && all2 xs' ys'
         | _, _ => false
         end) xs ys
  | VDict d, VDict d' =>
      Nat.eqb (List.length d) (List.length d') &&
      (fix sub (d : list (string * value)) {struct d} : bool :=
         match d with
         | [] => true
         | (k, v) :: rest =>
             (if dict_contains d' k
              then (same_nan && is_nan v && is_nan (dict_get d' k VNone))
                   || py_eq_with same_nan v (dict_get d' k VNone)
              else false)
             && sub rest
         end) d
  | _, _ =>
      match as_number a, as_number b with
      | Some x, Some y => number_eq x y
      | _, _ => false
      end
  end.

(** [a == b] for two values decoded from JSON.  The decoder returns one
    and the same NaN object for every NaN it reads, also across
    responses, so inside lists and dicts a NaN equals a NaN; the lists
    and dicts of two responses are themselves distinct objects. *)
Definition py_eq : value -> value -> bool := py_eq_with true.

(** [a == b] for a value decoded from JSON and a value of the
    configuration: the two share no NaN object. *)
Definition py_eq_foreign : value -> value -> bool := py_eq_with false.

(** [int(x)] of a float: truncation toward zero. *)
Definition int_of_float (f : float) : outcome Z :=
  match f with
  | S754_nan => Raise ValueError
  | S754_infinity _ => Raise OverflowError
  | S754_zero _ => Return 0
  | S754_finite s m e =>
      let mag := if 0 <=? e then Zpos m * 2 ^ e else Zpos m / 2 ^ (- e) in
      Return (if s then - mag else mag)
  end.

(** [round(x)] of a float: to the nearest integer, ties to even. *)
Definition round (f : float) : outcome Z :=
  match f with
  | S754_nan => Raise ValueError
  | S754_infinity _ => Raise OverflowError
  | S754_zero _ => Return 0
  | S754_finite s m e =>
      let mag :=
        if 0 <=? e then Zpos m * 2 ^ e
        else
          let d := 2 ^ (- e) in
          let q := Zpos m / d in
          let r := Zpos m mod d in
          match 2 * r ?= d with
          | Lt => q
          | Gt => q + 1
          | Eq => if Z.even q then q else q + 1
          end in
      Return (if s then - mag else mag)
  end.

Definition float_of_int (z : Z) : outcome float :=
  match float_of_Z z with
  | S754_infinity _ => Raise OverflowError
  | f => Return f
  end.

Section Builtins.

(** The text-to-float parser of the Python runtime: [None] where
    [float(s)] raises [ValueError]. *)
Variable float_of_str : string -> option float.

(** [float(x)]. *)
Definition py_float (v : value) : outcome float :=
  match v with
  | VBool b => Return (float_of_Z (if b then 1 else 0))
  | VInt z => float_of_int z
  | VFloat f => Return f
  | VStr s =>
      match float_of_str s with
      | Some f => Return f
      | None => Raise ValueError
      end
  | VNone | VList _ | VDict _ => Raise TypeError
  end.

End Builtins.

(** What [for x in v] iterates over. *)
Definition py_iter (v : value) : outcome (list value) :=
  match v with
  | VList items => Return items
  | VDict items => Return (List.map (fun kv => VStr (fst kv)) items)
  | VStr s => Return (List.map (fun c => VStr (String c EmptyString)) (list_ascii_of_string s))
  | VNone | VBool _ | VInt _ | VFloat _ => Raise TypeError
  end.

(** *** The state-and-exception monad

    A computation runs on a state and ends normally or with an
    exception; the state reached is kept in both cases, as the
    assignments made before a Python exception are. *)
Definition M (S A : Type) : Type := S -> outcome A * S.

Definition ret {S A} (a : A) : M S A := fun s => (Return a, s).

Definition bind {S A B} (c : M S A) (k : A -> M S B) : M S B :=
  fun s =>
    match c s with
    | (Return a, s') => k a s'
    | (Raise e, s') => (Raise e, s')
    end.

Definition raise {S A} (e : exn) : M S A := fun s => (Raise e, s).

(** [try: c  except Exception as err: h err]. *)
Definition try_except {S A} (c : M S A) (h : exn -> M S A) : M S A :=
  fun s =>
    match c s with
    | (Return a, s') => (Return a, s')
    | (Raise e, s') => h e s'
    end.

Definition gets {S A} (f : S -> A) : M S A := fun s => (Return (f s), s).
Definition modify {S} (f : S -> S) : M S unit := fun s => (Return tt, f s).
Definition lift {S A} (o : outcome A) : M S A := fun s => (o, s).

End Py.

Import Py.

Declare Scope py_scope.
Delimit Scope py_scope with py.
Notation "x <- c ;; k" := (bind c (fun x => k))
  (at level 61, c at next level, right associativity) : py_scope.
Notation "c ;; k" := (bind c (fun _ => k))
  (at level 61, right associativity) : py_scope.

Local Open Scope py_scope.

(** ** The world outside the program

    Log lines and calls into the OAuth, HTTP and host libraries are
    recorded, in order, in a trace.  The libraries are black boxes: a
    [network] answers each call from the request and the trace so far, so
    it may answer the same request differently at different times. *)

Inductive log_arg : Type :=
| ArgToken (tok : option string)
| ArgError (err : exn)
| ArgValue (v : value).

Inductive event : Type :=
| LogDebug (fmt : string) (args : list log_arg)
| LogError (fmt : string) (args : list log_arg)
| RequestToken (token_endpoint : string) (username password : option string)
| HttpGet (url : string) (headers : list (string * string))
| HttpPost (url : string) (json : value) (headers : list (string * string))
| ScheduleUpdateHaState.

(** A received HTTP response: what [raise_for_status()] and [json()] do
    on it. *)
Record response : Type := {
  raise_for_status : option exn;
  json : outcome value
}.

Record network : Type := {
  (** [sanction.Client(...).request_token(...)]: an exception, or the
      client's [access_token] afterwards. *)
  request_token : string -> option string -> option string -> list event -> outcome (option string);
  (** [requests.get(url, headers=...)]. *)
  http_get : string -> list (string * string) -> list event -> outcome response;
  (** [requests.post(url, json=..., headers=...)]. *)
  http_post : string -> value -> list (string * string) -> list event -> outcome response
}.

(** Does an event call the network? *)
Definition is_network_call (ev : event) : bool :=
  match ev with
  | RequestToken _ _ _ | HttpGet _ _ | HttpPost _ _ _ => true
  | LogDebug _ _ | LogError _ _ | ScheduleUpdateHaState => false
  end.

(** ** class AdaxAPI *)

Module AdaxAPI.

Record t : Type := {
  _api_url : string;
  _token : option string;
  _client_id : option string;
  _client_password : option string
}.

Definition with_token (tok : option string) (self : t) : t :=
  {| _api_url := _api_url self;
     _token := tok;
     _client_id := _client_id self;
     _client_password := _client_password self |}.

(** The client object and the trace. *)
Record world : Type := {
  client : t;
  trace : list event
}.

Definition emit (ev : event) : M world unit :=
  modify (fun w => {| client := client w; trace := trace w ++ [ev] |}).

Definition set_token (tok : option string) : M world unit :=
  modify (fun w => {| client := with_token tok (client w); trace := trace w |}).

(** [f"Bearer {self._token}"] *)
Definition bearer (tok : option string) : string :=
  "Bearer " ++ match tok with Some s => s | None => "None" end.

Section Methods.

Variable net : network.
Variable float_of_str : string -> option float.

(** The library calls: each is recorded, then answered by [net]. *)
Definition call_request_token (url : string) (user pass : option string)
  : M world (option string) :=
  tr <- gets trace ;;
  emit (RequestToken url user pass) ;;
  lift (request_token net url user pass tr).

Definition call_get (url : string) (headers : list (string * string))
  : M world response :=
  tr <- gets trace ;;
  emit (HttpGet url headers) ;;
  lift (http_get net url headers tr).

Definition call_post (url : string) (payload : value) (headers : list (string * string))
  : M world response :=
  tr <- gets trace ;;
  emit (HttpPost url payload headers) ;;
  lift (http_post net url payload headers tr).

Definition call_raise_for_status (r : response) : M world unit :=
  match raise_for_status r with
  | Some e => raise e
  | None => ret tt
  end.

Definition refresh_token : M world unit :=
  self <- gets client ;;
  let token_url := _api_url self ++ "/auth/token" in
  try_except
    (access_token <- call_request_token token_url (_client_id self) (_client_password self) ;;
     set_token access_token ;;
     emit (LogDebug "Token erhållen: %s" [ArgToken access_token]))
    (fun err =>
       emit (LogError "Fel vid erhållande av token: %s" [ArgError err]) ;;
       set_token None).

(** [if not self._token and self._client_id and self._client_password:
       self.refresh_token()], the first statement of every request. *)
Definition needs_refresh (self : t) : bool :=
  negb (truthy (_token self)) && truthy (_client_id self) && truthy (_client_password self).

Definition __init__ (token client_id client_password : option string) (tr : list event)
  : outcome unit * world :=
  let self := {| _api_url := "https://api-1.adax.no/client-api";
                 _token := token;
                 _client_id := client_id;
                 _client_password := client_password |} in
  (if needs_refresh self then refresh_token else ret tt)
    {| client := self; trace := tr |}.

Definition get_rooms : M world value :=
  self <- gets client ;;
  (if needs_refresh self then refresh_token else ret tt) ;;
  self <- gets client ;;
  if negb (truthy (_token self)) then
    emit (LogError "Inget giltigt token, kontrollera autentiseringsuppgifterna!" []) ;;
    ret (VList [])
  else
    let headers := [("Authorization", bearer (_token self))] in
    try_except
      (response <- call_get (_api_url self ++ "/rest/v1/content/") headers ;;
       call_raise_for_status response ;;
       data <- lift (json response) ;;
       match data with
       | VDict items => ret (dict_get items "rooms" (VList []))
       | _ => raise AttributeError
       end)
      (fun err =>
         emit (LogError "Fel vid hämtning av rum: %s" [ArgError err]) ;;
         ret (VList [])).

Definition set_temperature (room_id temperature : value) : M world bool :=
  self <- gets client ;;
  (if needs_refresh self then refresh_token else ret tt) ;;
  self <- gets client ;;
  if negb (truthy (_token self)) then
    emit (LogError "Inget giltigt token, kontrollerna kan inte utföras!" []) ;;
    ret false
  else
    let headers := [("Authorization", bearer (_token self))] in
    f <- lift (py_float float_of_str temperature) ;;
    hundredths <- lift (int_of_float (fmul f (float_of_Z 100))) ;;
    let payload :=
      VDict [("rooms",
              VList [VDict [("id", room_id);
                            ("targetTemperature", VInt hundredths)]])] in
    try_except
      (response <- call_post (_api_url self ++ "/rest/v1/control/") payload headers ;;
       call_raise_for_status response ;;
       ret true)
      (fun err =>
         emit (LogError "Fel vid ändring av temperatur för rum %s: %s"
                        [ArgValue room_id; ArgError err]) ;;
         ret false).

End Methods.

End AdaxAPI.

(** ** class AdaxClimate *)

Inductive hvac : Type :=
| HVAC_MODE_OFF
| HVAC_MODE_HEAT.

(** [room.get("name", f"Adax Element {self._room_id}")]: the name found
    in the room, or the default one, kept as the value it is formatted
    from. *)
Inductive entity_name : Type :=
| NameOf (v : value)
| AdaxElement (room_id : value).

Module AdaxClimate.

Record t : Type := {
  _room : value;
  _room_id : value;
  _name : entity_name;
  _current_temperature : value;
  _target_temperature : value;
  _hvac_mode : hvac
}.

(** A device and the world it lives in; [self._api] is the client
    object of the world, shared with the other devices. *)
Record state : Type := {
  self : t;
  world : AdaxAPI.world
}.

Definition with_current (v : value) (d : t) : t :=
  {| _room := _room d; _room_id := _room_id d; _name := _name d;
     _current_temperature := v;
     _target_temperature := _target_temperature d;
     _hvac_mode := _hvac_mode d |}.

Definition with_target (v : value) (d : t) : t :=
  {| _room := _room d; _room_id := _room_id d; _name := _name d;
     _current_temperature := _current_temperature d;
     _target_temperature := v;
     _hvac_mode := _hvac_mode d |}.

Definition set_current (v : value) : M state unit :=
  modify (fun st => {| self := with_current v (self st); world := world st |}).

Definition set_target (v : value) : M state unit :=
  modify (fun st => {| self := with_target v (self st); world := world st |}).

(** A method call on [self._api]: it runs on the shared world. *)
Definition on_api {A} (c : M AdaxAPI.world A) : M state A :=
  fun st =>
    let (r, w) := c (world st) in
    (r, {| self := self st; world := w |}).

Definition __init__ (room : value) : outcome t :=
  match room with
  | VDict items =>
      let room_id := dict_get items "id" VNone in
      Return {| _room := room;
                _room_id := room_id;
                _name := if dict_contains items "name"
                         then NameOf (dict_get items "name" VNone)
                         else AdaxElement room_id;
                _current_temperature := VNone;
                _target_temperature := VNone;
                _hvac_mode := HVAC_MODE_HEAT |}
  | _ => Raise AttributeError
  end.

Definition should_poll (d : t) : bool := true.
Definition name (d : t) : entity_name := _name d.
Definition current_temperature (d : t) : value := _current_temperature d.
Definition target_temperature (d : t) : value := _target_temperature d.
Definition hvac_mode (d : t) : hvac := _hvac_mode d.
Definition hvac_modes (d : t) : list hvac := [HVAC_MODE_OFF; HVAC_MODE_HEAT].

Section Methods.

Variable net : network.
Variable float_of_str : string -> option float.

Definition schedule_update_ha_state : M state unit :=
  on_api (AdaxAPI.emit ScheduleUpdateHaState).

Definition set_temperature (kwargs : list (string * value)) : M state unit :=
  let temperature := dict_get kwargs "temperature" VNone in
  match temperature with
  | VNone => ret tt
  | _ =>
      room_id <- gets (fun st => _room_id (self st)) ;;
      ok <- on_api (AdaxAPI.set_temperature net float_of_str room_id temperature) ;;
      if ok then
        set_target temperature ;;
        schedule_update_ha_state
      else ret tt
  end.

(** The body of [for room in rooms: ...], up to the [break]. *)
Fixpoint update_loop (rooms : list value) : M state unit :=
  match rooms with
  | [] => ret tt
  | room :: rest =>
      match room with
      | VDict items =>
          room_id <- gets (fun st => _room_id (self st)) ;;
          if py_eq (dict_get items "id" VNone) room_id then
            (if dict_contains items "temperature" then
               f <- lift (py_float float_of_str (dict_get items "temperature" (VInt 0))) ;;
               set_current (VFloat (fdiv f (float_of_Z 100)))
             else ret tt) ;;
            (if dict_contains items "targetTemperature" then
               f <- lift (py_float float_of_str (dict_get items "targetTemperature" (VInt 0))) ;;
               set_target (VFloat (fdiv f (float_of_Z 100)))
             else ret tt)
          else update_loop rest
      | _ => raise AttributeError
      end
  end.

Definition update : M state unit :=
  rooms <- on_api (AdaxAPI.get_rooms net) ;;
  items <- lift (py_iter rooms) ;;
  update_loop items.

End Methods.

End AdaxClimate.

(** ** Vocabulary of the properties *)

(** The decimal literals of the properties, as binary64 numbers. *)
Definition f19_9 : float := S754_finite false 5601352036542054 (-48).
Definition f21_5 : float := S754_finite false 6051711999279104 (-48).
Definition f21_37 : float := S754_finite false 6015120252306719 (-48).
Definition f22_0 : float := S754_finite false 6192449487634432 (-48).

(** [f] is a normal binary64 number within half a unit in the last place
    of the fraction [num / den]: it is what the literal denotes. *)
Definition denotes (f : float) (num den : Z) : bool :=
  match f with
  | S754_finite false m e =>
      (Zpos (digits2_pos m) =? prec) && (e <? 0) && (0 <? den)
      && (Z.abs (2 * Zpos m * den - 2 * num * 2 ^ (- e)) <=? den)
  | _ => false
  end.

Definition control_url : string := "https://api-1.adax.no/client-api/rest/v1/control/".
Definition content_url : string := "https://api-1.adax.no/client-api/rest/v1/content/".

(** The request body of [AdaxAPI.set_temperature]. *)
Definition control_payload (room_id : value) (hundredths : Z) : value :=
  VDict [("rooms", VList [VDict [("id", room_id); ("targetTemperature", VInt hundredths)]])].

(** The state of the client after the refresh attempt that opens every
    request. *)
Definition after_refresh (net : network) (w : AdaxAPI.world) : AdaxAPI.world :=
  if AdaxAPI.needs_refresh (AdaxAPI.client w)
  then snd (AdaxAPI.refresh_token net w)
  else w.

(** The GET of the content endpoint, issued from world [w], fails: the
    transport raises or the status check of the response does. *)
Definition content_get_fails (net : network) (w : AdaxAPI.world) : bool :=
  let self := AdaxAPI.client w in
  match http_get net (AdaxAPI._api_url self ++ "/rest/v1/content/")
                 [("Authorization", AdaxAPI.bearer (AdaxAPI._token self))]
                 (AdaxAPI.trace w) with
  | Raise _ => true
  | Return r => match raise_for_status r with Some _ => true | None => false end
  end.

(** A room entry whose id differs from [room_id], the id of a device. *)
Definition other_room (room_id : value) (entry : value) : bool :=
  match entry with
  | VDict items => negb (py_eq (dict_get items "id" VNone) room_id)
  | _ => false
  end.

(** A room entry whose id differs from [room_id], the configured id. *)
Definition other_than_configured (room_id : value) (entry : value) : bool :=
  match entry with
  | VDict items => negb (py_eq_foreign (dict_get items "id" VNone) room_id)
  | _ => false
  end.

(** What happens to a device: the host polls it or sets its target, and
    between two such calls the other devices, which share the client, may
    have changed the world. *)
Inductive operation : Type :=
| Poll
| SetTarget (kwargs : list (string * value))
| Elsewhere (change : AdaxAPI.world -> AdaxAPI.world).

Definition run_operation (net : network) (float_of_str : string -> option float)
  (st : AdaxClimate.state) (op : operation) : AdaxClimate.state :=
  match op with
  | Poll => snd (AdaxClimate.update net float_of_str st)
  | SetTarget kwargs => snd (AdaxClimate.set_temperature net float_of_str kwargs st)
  | Elsewhere change =>
      {| AdaxClimate.self := AdaxClimate.self st;
         AdaxClimate.world := change (AdaxClimate.world st) |}
  end.

Definition run_operations (net : network) (float_of_str : string -> option float)
  (ops : list operation) (st : AdaxClimate.state) : AdaxClimate.state :=
  fold_left (run_operation net float_of_str) ops st.

(** *** Sample environments *)

Definition ok_response (body : value) : response :=
  {| raise_for_status := None; json := Return body |}.

(** A cloud that grants the token [granted] and serves [rooms]. *)
Definition net_serving (rooms : value) : network :=
  {| request_token := fun _ _ _ _ => Return (Some "granted");
     http_get := fun _ _ _ => Return (ok_response (VDict [("rooms", rooms)]));
     http_post := fun _ _ _ _ => Return (ok_response (VDict [])) |}.

(** A cloud that answers every control request with an error status. *)
Definition net_rejecting : network :=
  {| request_token := fun _ _ _ _ => Return (Some "granted");
     http_get := fun _ _ _ => Return (ok_response (VDict [("rooms", VList [])]));
     http_post := fun _ _ _ _ =>
       Return {| raise_for_status := Some (LibraryError "HTTPError");
                 json := Raise ValueError |} |}.

(** No connection at all. *)
Definition net_down : network :=
  {| request_token := fun _ _ _ _ => Raise (LibraryError "ConnectionError");
     http_get := fun _ _ _ => Raise (LibraryError "ConnectionError");
     http_post := fun _ _ _ _ => Raise (LibraryError "ConnectionError") |}.

Definition no_text_floats : string -> option float := fun _ => None.

Definition client_of (token client_id client_password : option string) : AdaxAPI.t :=
  {| AdaxAPI._api_url := "https://api-1.adax.no/client-api";
     AdaxAPI._token := token;
     AdaxAPI._client_id := client_id;
     AdaxAPI._client_password := client_password |}.

Definition world_of (token client_id client_password : option string) : AdaxAPI.world :=
  {| AdaxAPI.client := client_of token client_id client_password; AdaxAPI.trace := [] |}.

(** A client configured with a token, before and after one GET of the
    content endpoint. *)
Definition secret_world : AdaxAPI.world := world_of (Some "secret") None None.

Definition secret_world_after_get : AdaxAPI.world :=
  {| AdaxAPI.client := client_of (Some "secret") None None;
     AdaxAPI.trace := [HttpGet content_url [("Authorization", "Bearer secret")]] |}.

Definition room5 : value :=
  VDict [("id", VInt 5); ("temperature", VInt 2137); ("targetTemperature", VInt 2200)].

Definition room7 : value :=
  VDict [("id", VInt 7); ("name", VStr "Hall"); ("temperature", VInt 1850)].

(** The device that [AdaxClimate.__init__] builds for a room with id 5. *)
Definition device5 : AdaxClimate.t :=
  {| AdaxClimate._room := VDict [("id", VInt 5)];
     AdaxClimate._room_id := VInt 5;
     AdaxClimate._name := AdaxElement (VInt 5);
     AdaxClimate._current_temperature := VNone;
     AdaxClimate._target_temperature := VNone;
     AdaxClimate._hvac_mode := HVAC_MODE_HEAT |}.

Definition state5 (w : AdaxAPI.world) : AdaxClimate.state :=
  {| AdaxClimate.self := device5; AdaxClimate.world := w |}.

(** ** Platform setup *)

(** Truth value of a value, as [if x:] tests it. *)
Definition py_truthy (v : value) : bool :=
  match v with
  | VNone => false
  | VBool b => b
  | VInt z => negb (z =? 0)
  | VFloat (S754_zero _) => false
  | VFloat _ => true
  | VStr s => negb (String.eqb s "")
  | VList [] => false
  | VList (_ :: _) => true
  | VDict [] => false
  | VDict (_ :: _) => true
  end.

(** What [config.get] gives for the keys that [setup_platform] reads; the
    credentials are strings or None. *)
Record config : Type := {
  cfg_token : option string;
  cfg_client_id : option string;
  cfg_client_password : option string;
  cfg_room_id : value
}.

(** How [setup_platform] ends: it returns before a client exists, or it
    runs on the client it built and either hands the entities to
    [add_entities] or lets an exception escape. *)
Inductive setup_result : Type :=
| NotConfigured (tr : list event)
| Configured (added : outcome (list AdaxClimate.t)) (w : AdaxAPI.world).

(** [for room in rooms: if room.get("id") == room_id: room_found = room; break] *)
Fixpoint search_room (room_id : value) (rooms : list value) (room_found : value)
  : outcome value :=
  match rooms with
  | [] => Return room_found
  | room :: rest =>
      match room with
      | VDict items =>
          if py_eq_foreign (dict_get items "id" VNone) room_id then Return room
          else search_room room_id rest room_found
      | _ => Raise AttributeError
      end
  end.

(** [for room in rooms: entities.append(AdaxClimate(adax_api, room))] *)
Fixpoint append_entities (rooms : list value) (entities : list AdaxClimate.t)
  : outcome (list AdaxClimate.t) :=
  match rooms with
  | [] => Return entities
  | room :: rest =>
      match AdaxClimate.__init__ room with
      | Return d => append_entities rest (entities ++ [d])
      | Raise e => Raise e
      end
  end.

Definition setup_platform (net : network) (config : config) (tr : list event)
  : setup_result :=
  let token := cfg_token config in
  let client_id := cfg_client_id config in
  let client_password := cfg_client_password config in
  if negb (truthy token) && (negb (truthy client_id) || negb (truthy client_password)) then
    NotConfigured
      (tr ++ [LogError
                "Ange antingen 'token' eller både 'client_id' och 'client_password' i konfigurationen!"
                []])
  else
    let (built, w0) :=
      if truthy token then AdaxAPI.__init__ net token None None tr
      else AdaxAPI.__init__ net None client_id client_password tr in
    match built with
    | Raise e => Configured (Raise e) w0
    | Return _ =>
        let room_id := cfg_room_id config in
        let (added, w) :=
          (if py_truthy room_id then
             rooms <- AdaxAPI.get_rooms net ;;
             items <- lift (py_iter rooms) ;;
             room_found <- lift (search_room room_id items VNone) ;;
             if py_truthy room_found then
               d <- lift (AdaxClimate.__init__ room_found) ;;
               ret [d]
             else
               AdaxAPI.emit (LogError "Inget rum med id %s hittades!" [ArgValue room_id]) ;;
               ret []
           else
             rooms <- AdaxAPI.get_rooms net ;;
             items <- lift (py_iter rooms) ;;
             entities <- lift (append_entities items []) ;;
             (if negb (py_truthy rooms) then
                AdaxAPI.emit
                  (LogError
                     "Inga Adax-element hittades. Kontrollera dina autentiseringsuppgifter och API-status!"
                     [])
              else ret tt) ;;
             ret entities) w0 in
        Configured added w
    end.

(** ** More vocabulary *)

(** [int(float(temperature) * 100)] *)
Definition hundredths_of (float_of_str : string -> option float) (temperature : value)
  : outcome Z :=
  match py_float float_of_str temperature with
  | Return f => int_of_float (fmul f (float_of_Z 100))
  | Raise e => Raise e
  end.

(** The POST of the control endpoint, issued from world [w] for [room_id]
    and [hundredths], comes back with a response that passes the status
    check. *)
Definition control_post_succeeds (net : network) (w : AdaxAPI.world)
  (room_id : value) (hundredths : Z) : bool :=
  let self := AdaxAPI.client w in
  match http_post net (AdaxAPI._api_url self ++ "/rest/v1/control/")
                  (control_payload room_id hundredths)
                  [("Authorization", AdaxAPI.bearer (AdaxAPI._token self))]
                  (AdaxAPI.trace w) with
  | Raise _ => false
  | Return r => match raise_for_status r with Some _ => false | None => true end
  end.

Definition is_token_request (ev : event) : bool :=
  match ev with RequestToken _ _ _ => true | _ => false end.

Definition is_get (ev : event) : bool :=
  match ev with HttpGet _ _ => true | _ => false end.

Definition is_post (ev : event) : bool :=
  match ev with HttpPost _ _ _ => true | _ => false end.

(** The fresh device of a room with the given items. *)
Definition fresh_device (items : list (string * value)) : AdaxClimate.t :=
  {| AdaxClimate._room := VDict items;
     AdaxClimate._room_id := dict_get items "id" VNone;
     AdaxClimate._name := if dict_contains items "name"
                          then NameOf (dict_get items "name" VNone)
                          else AdaxElement (dict_get items "id" VNone);
     AdaxClimate._current_temperature := VNone;
     AdaxClimate._target_temperature := VNone;
     AdaxClimate._hvac_mode := HVAC_MODE_HEAT |}.

Definition is_dict (v : value) : bool :=
  match v with VDict _ => true | _ => false end.

(** A cloud that grants a token and then answers every request with an
    error status. *)
Definition net_unauthorized : network :=
  {| request_token := fun _ _ _ _ => Return (Some "granted");
     http_get := fun _ _ _ =>
       Return {| raise_for_status := Some (LibraryError "HTTPError");
                 json := Raise ValueError |};
     http_post := fun _ _ _ _ =>
       Return {| raise_for_status := Some (LibraryError "HTTPError");
                 json := Raise ValueError |} |}.

(** The configuration names a token, or a client id and a client
    password. *)
Definition configured (config : config) : bool :=
  truthy (cfg_token config)
  || (truthy (cfg_client_id config) && truthy (cfg_client_password config)).

(** The world in which [setup_platform] leaves the client it has built. *)
Definition built_world (net : network) (config : config) (tr : list event) : AdaxAPI.world :=
  snd (if truthy (cfg_token config)
       then AdaxAPI.__init__ net (cfg_token config) None None tr
       else AdaxAPI.__init__ net None (cfg_client_id config) (cfg_client_password config) tr).

(** A device as [AdaxClimate.__init__] leaves it. *)
Definition is_fresh (d : AdaxClimate.t) : bool :=
  match AdaxClimate._hvac_mode d, AdaxClimate._current_temperature d,
        AdaxClimate._target_temperature d with
  | HVAC_MODE_HEAT, VNone, VNone => true
  | _, _, _ => false
  end.

(** The trace that [setup_platform] leaves. *)
Definition result_trace (r : setup_result) : list event :=
  match r with
  | NotConfigured tr => tr
  | Configured _ w => AdaxAPI.trace w
  end.

(** The events hold at most [tokens] token requests and [gets] GETs, and
    no POST. *)
Definition calls_within (tokens gets : nat) (events : list event) : bool :=
  Nat.leb (List.length (List.filter is_token_request events)) tokens
  && Nat.leb (List.length (List.filter is_get events)) gets
  && negb (existsb is_post events).

(** A cloud whose token exchange returns without an access token. *)
Definition net_granting_nothing : network :=
  {| request_token := fun _ _ _ _ => Return None;
     http_get := fun _ _ _ => Return (ok_response (VDict [("rooms", VList [])]));
     http_post := fun _ _ _ _ => Return (ok_response (VDict [])) |}.

(** A cloud that answers the content request with the body [body]. *)
Definition net_answering (body : value) : network :=
  {| request_token := fun _ _ _ _ => Return (Some "granted");
     http_get := fun _ _ _ => Return (ok_response body);
     http_post := fun _ _ _ _ => Return (ok_response (VDict [])) |}.

Definition user_world : AdaxAPI.world := world_of None (Some "user") (Some "pw").

Definition token_url : string := "https://api-1.adax.no/client-api/auth/token".

Definition bath5 : list (string * value) :=
  [("name", VStr "Bath"); ("id", VInt 5); ("temperature", VInt 1950);
   ("targetTemperature", VInt 2000)].

(** A device built from a room that has no id. *)
Definition attic : AdaxClimate.t := fresh_device [("name", VStr "Attic")].

Definition config_of (token client_id client_password : option string) (room_id : value)
  : config :=
  {| cfg_token := token; cfg_client_id := client_id;
     cfg_client_password := client_password; cfg_room_id := room_id |}.

(** ** Properties *)

(** Unfolds the monad so that a computation reduces on its state. *)
Ltac run :=
  cbv beta delta [bind ret raise try_except gets modify lift
                  AdaxAPI.emit AdaxAPI.set_token
                  AdaxAPI.call_request_token AdaxAPI.call_get AdaxAPI.call_post
                  AdaxAPI.call_raise_for_status
                  AdaxClimate.on_api AdaxClimate.set_current AdaxClimate.set_target
                  AdaxClimate.schedule_update_ha_state];
  cbn [fst snd AdaxAPI.client AdaxAPI.trace AdaxClimate.self AdaxClimate.world].

Section ClientProperties.

Variable net : network.

(** [refresh_token] always returns: the token it was granted is stored,
    or none when the exchange raised. *)
Lemma refresh_token_run (w : AdaxAPI.world) :
  AdaxAPI.refresh_token net w =
  (Return tt,
   let self := AdaxAPI.client w in
   let call := RequestToken (AdaxAPI._api_url self ++ "/auth/token")
                            (AdaxAPI._client_id self) (AdaxAPI._client_password self) in
   match request_token net (AdaxAPI._api_url self ++ "/auth/token")
                       (AdaxAPI._client_id self) (AdaxAPI._client_password self)
                       (AdaxAPI.trace w) with
   | Return tok =>
       {| AdaxAPI.client := AdaxAPI.with_token tok self;
          AdaxAPI.trace := AdaxAPI.trace w
                           ++ [call; LogDebug "Token erhållen: %s" [ArgToken tok]] |}
   | Raise err =>
       {| AdaxAPI.client := AdaxAPI.with_token None self;
          AdaxAPI.trace := AdaxAPI.trace w
                           ++ [call; LogError "Fel vid erhållande av token: %s" [ArgError err]] |}
   end).
Proof.
  unfold AdaxAPI.refresh_token. run.
  destruct (request_token net _ _ _ _) as [tok | err]; run;
    rewrite <- app_assoc; reflexivity.
Qed.

(** The refresh attempt that opens a request returns and leaves the
    world [after_refresh]. *)
Lemma refresh_attempt_run (w : AdaxAPI.world) :
  (if AdaxAPI.needs_refresh (AdaxAPI.client w)
   then AdaxAPI.refresh_token net else ret tt) w
  = (Return tt, after_refresh net w).
Proof.
  unfold after_refresh.
  destruct (AdaxAPI.needs_refresh (AdaxAPI.client w)).
  - rewrite refresh_token_run. reflexivity.
  - reflexivity.
Qed.

(** With no usable token and no credential pair, no refresh is tried. *)
Lemma after_refresh_without_credentials (w : AdaxAPI.world) :
  truthy (AdaxAPI._client_id (AdaxAPI.client w))
    && truthy (AdaxAPI._client_password (AdaxAPI.client w)) = false ->
  after_refresh net w = w.
Proof.
  intros H. unfold after_refresh, AdaxAPI.needs_refresh.
  rewrite <- andb_assoc, H, andb_false_r. reflexivity.
Qed.

(** C3: when the token exchange raises, whatever the error,
    [refresh_token] returns normally, having recorded the request,
    logged the error and set the stored token to None. *)
Theorem refresh_token_fail_closed (w : AdaxAPI.world) (err : exn) :
  request_token net (AdaxAPI._api_url (AdaxAPI.client w) ++ "/auth/token")
                (AdaxAPI._client_id (AdaxAPI.client w))
                (AdaxAPI._client_password (AdaxAPI.client w))
                (AdaxAPI.trace w) = Raise err ->
  AdaxAPI.refresh_token net w =
  (Return tt,
   {| AdaxAPI.client := AdaxAPI.with_token None (AdaxAPI.client w);
      AdaxAPI.trace :=
        AdaxAPI.trace w
        ++ [RequestToken (AdaxAPI._api_url (AdaxAPI.client w) ++ "/auth/token")
                         (AdaxAPI._client_id (AdaxAPI.client w))
                         (AdaxAPI._client_password (AdaxAPI.client w));
            LogError "Fel vid erhållande av token: %s" [ArgError err]] |}).
Proof.
  intros H. rewrite refresh_token_run. cbv zeta. rewrite H. reflexivity.
Qed.

(** What [get_rooms] does once the refresh attempt is over. *)
Lemma get_rooms_run (w : AdaxAPI.world) :
  AdaxAPI.get_rooms net w =
  let w1 := after_refresh net w in
  let self := AdaxAPI.client w1 in
  let logged ev := {| AdaxAPI.client := self; AdaxAPI.trace := AdaxAPI.trace w1 ++ ev |} in
  if negb (truthy (AdaxAPI._token self)) then
    (Return (VList []),
     logged [LogError "Inget giltigt token, kontrollera autentiseringsuppgifterna!" []])
  else
    let url := AdaxAPI._api_url self ++ "/rest/v1/content/" in
    let headers := [("Authorization", AdaxAPI.bearer (AdaxAPI._token self))] in
    let failed err :=
      (Return (VList []),
       logged [HttpGet url headers; LogError "Fel vid hämtning av rum: %s" [ArgError err]]) in
    match http_get net url headers (AdaxAPI.trace w1) with
    | Raise err => failed err
    | Return r =>
        match raise_for_status r with
        | Some err => failed err
        | None =>
            match json r with
            | Raise err => failed err
            | Return (VDict items) =>
                (Return (dict_get items "rooms" (VList [])), logged [HttpGet url headers])
            | Return _ => failed AttributeError
            end
        end
    end.
Proof.
  unfold AdaxAPI.get_rooms.
  unfold bind at 1. unfold gets at 1.
  unfold bind at 1. rewrite refresh_attempt_run.
  generalize (after_refresh net w); intros w1. cbv zeta. run.
  destruct (negb (truthy (AdaxAPI._token (AdaxAPI.client w1)))); [reflexivity|].
  run. destruct w1 as [self tr]; cbn [AdaxAPI.client AdaxAPI.trace].
  destruct (http_get net _ _ _) as [r | err]; run.
  - destruct (raise_for_status r) as [err|]; run.
    + rewrite <- app_assoc; reflexivity.
    + destruct (json r) as [data | err]; run.
      * destruct data; run; try (rewrite <- app_assoc); reflexivity.
      * rewrite <- app_assoc; reflexivity.
  - rewrite <- app_assoc; reflexivity.
Qed.

(** C2: [get_rooms] returns normally from every state of the client;
    it returns the empty list when no token is there after the refresh
    attempt, and when the GET of the content endpoint fails by a
    transport error or by the status of the response. *)
Theorem get_rooms_never_raises (w : AdaxAPI.world) :
  exists rooms w',
    AdaxAPI.get_rooms net w = (Return rooms, w')
    /\ (truthy (AdaxAPI._token (AdaxAPI.client (after_refresh net w))) = false ->
        rooms = VList [])
    /\ (content_get_fails net (after_refresh net w) = true -> rooms = VList []).
Proof.
  rewrite get_rooms_run. cbv zeta. unfold content_get_fails.
  generalize (after_refresh net w); intros w1.
  destruct (truthy (AdaxAPI._token (AdaxAPI.client w1))); cbn [negb].
  - destruct (http_get net _ _ _) as [r | err].
    + destruct (raise_for_status r) as [err|].
      * eexists _, _. split; [reflexivity|]. split; reflexivity.
      * destruct (json r) as [[]|]; eexists _, _;
          (split; [reflexivity|]); split; intros; try reflexivity; discriminate.
    + eexists _, _. split; [reflexivity|]. split; reflexivity.
  - eexists _, _. split; [reflexivity|]. split; reflexivity.
Qed.

(** C8: a client with no token and without the pair of client id and
    client password answers [get_rooms] with the empty list; its only
    effect is one log line, and no network call is recorded. *)
Theorem get_rooms_without_credentials (w : AdaxAPI.world) :
  truthy (AdaxAPI._token (AdaxAPI.client w)) = false ->
  truthy (AdaxAPI._client_id (AdaxAPI.client w))
    && truthy (AdaxAPI._client_password (AdaxAPI.client w)) = false ->
  exists new,
    AdaxAPI.get_rooms net w =
      (Return (VList []),
       {| AdaxAPI.client := AdaxAPI.client w; AdaxAPI.trace := AdaxAPI.trace w ++ new |})
    /\ existsb is_network_call new = false.
Proof.
  intros Htok Hcred. rewrite get_rooms_run. cbv zeta.
  rewrite (after_refresh_without_credentials w Hcred), Htok. cbn [negb].
  eexists. split; reflexivity.
Qed.

End ClientProperties.

Section SetPointRequest.

Variable net : network.
Variable float_of_str : string -> option float.

(** A client that holds a token asks for no new one. *)
Lemma after_refresh_with_token (w : AdaxAPI.world) :
  truthy (AdaxAPI._token (AdaxAPI.client w)) = true ->
  after_refresh net w = w.
Proof.
  intros H. unfold after_refresh, AdaxAPI.needs_refresh. rewrite H. reflexivity.
Qed.

(** The body that [AdaxAPI.set_temperature] posts carries the integer
    part of the binary64 product [float(temperature) * 100]. *)
Lemma set_temperature_posts_truncation
  (w : AdaxAPI.world) (room_id temperature : value) (f : float) (n : Z) :
  truthy (AdaxAPI._token (AdaxAPI.client w)) = true ->
  py_float float_of_str temperature = Return f ->
  int_of_float (fmul f (float_of_Z 100)) = Return n ->
  exists ok log,
    AdaxAPI.set_temperature net float_of_str room_id temperature w =
    (Return ok,
     {| AdaxAPI.client := AdaxAPI.client w;
        AdaxAPI.trace :=
          AdaxAPI.trace w
          ++ HttpPost (AdaxAPI._api_url (AdaxAPI.client w) ++ "/rest/v1/control/")
                      (control_payload room_id n)
                      [("Authorization", AdaxAPI.bearer (AdaxAPI._token (AdaxAPI.client w)))]
             :: log |}).
Proof.
  intros Htok Hf Hn. unfold AdaxAPI.set_temperature.
  unfold bind at 1. unfold gets at 1.
  unfold bind at 1. rewrite refresh_attempt_run, (after_refresh_with_token w Htok).
  run. rewrite Htok. cbn [negb]. run. rewrite Hf, Hn.
  destruct w as [self tr]; cbn [AdaxAPI.client AdaxAPI.trace].
  destruct (http_post net _ _ _ _) as [r | err]; run.
  - destruct (raise_for_status r) as [err|]; run.
    + eexists _, [_]. rewrite <- app_assoc. reflexivity.
    + eexists _, []. reflexivity.
  - eexists _, [_]. rewrite <- app_assoc. reflexivity.
Qed.

(** 21.5 degrees go out as 2150 hundredths. *)
Lemma set_temperature_21_5 (room_id : value) :
  exists ok log,
    AdaxAPI.set_temperature net float_of_str room_id (VFloat f21_5)
                            (world_of (Some "secret") None None) =
    (Return ok,
     {| AdaxAPI.client := client_of (Some "secret") None None;
        AdaxAPI.trace :=
          HttpPost control_url (control_payload room_id 2150)
                   [("Authorization", "Bearer secret")] :: log |}).
Proof.
  exact (set_temperature_posts_truncation
           (world_of (Some "secret") None None) room_id (VFloat f21_5) f21_5 2150
           eq_refl eq_refl eq_refl).
Qed.

(** C1 at the set point 19.9: the binary64 product [19.9 * 100] lies
    just under 1990, the request carries its integer part 1989, and
    rounding the same product gives 1990. *)
Theorem set_temperature_19_9_sends_1989 (room_id : value) :
  denotes f19_9 199 10 = true
  /\ Py.round (fmul f19_9 (float_of_Z 100)) = Return 1990
  /\ exists ok log,
       AdaxAPI.set_temperature net float_of_str room_id (VFloat f19_9)
                               (world_of (Some "secret") None None) =
       (Return ok,
        {| AdaxAPI.client := client_of (Some "secret") None None;
           AdaxAPI.trace :=
             HttpPost control_url (control_payload room_id 1989)
                      [("Authorization", "Bearer secret")] :: log |}).
Proof.
  split; [vm_compute; reflexivity|]. split; [vm_compute; reflexivity|].
  exact (set_temperature_posts_truncation
           (world_of (Some "secret") None None) room_id (VFloat f19_9) f19_9 1989
           eq_refl eq_refl eq_refl).
Qed.

End SetPointRequest.

(** The constants are the binary64 numbers of their decimal literals. *)
Lemma literals_denote :
  denotes f21_5 215 10 = true /\ denotes f21_37 2137 100 = true
  /\ denotes f22_0 22 1 = true.
Proof. vm_compute. repeat split. Qed.

Section DeviceProperties.

Variable net : network.
Variable float_of_str : string -> option float.

Abbreviation update := (AdaxClimate.update net float_of_str).
Abbreviation update_loop := (AdaxClimate.update_loop float_of_str).
Abbreviation set_target := (AdaxClimate.set_temperature net float_of_str).

(** [update] is the scan of what [get_rooms] returned. *)
Lemma update_run (st : AdaxClimate.state) (rooms : list value) (w' : AdaxAPI.world) :
  AdaxAPI.get_rooms net (AdaxClimate.world st) = (Return (VList rooms), w') ->
  update st = update_loop rooms {| AdaxClimate.self := AdaxClimate.self st;
                                   AdaxClimate.world := w' |}.
Proof.
  intros H. unfold AdaxClimate.update. run. rewrite H. reflexivity.
Qed.

(** The scan passes over the entries of other rooms. *)
Lemma update_loop_skip (st : AdaxClimate.state) (pre rest : list value) :
  forallb (other_room (AdaxClimate._room_id (AdaxClimate.self st))) pre = true ->
  update_loop (pre ++ rest) st = update_loop rest st.
Proof.
  induction pre as [|entry pre IH]; intros H; [reflexivity|].
  cbn [forallb] in H. apply andb_true_iff in H. destruct H as [Hentry Hpre].
  destruct entry; try discriminate Hentry.
  cbn [other_room] in Hentry. apply negb_true_iff in Hentry.
  cbn [app AdaxClimate.update_loop]. run. rewrite Hentry. exact (IH Hpre).
Qed.

(** C4: when [get_rooms] returns a list whose entry for room 5 is
    [{"id": 5, "temperature": 2137, "targetTemperature": 2200}], the
    entries before it belonging to other rooms, [update] on the device of
    room 5 returns with current temperature 21.37 and target
    temperature 22.0. *)
Theorem update_reads_room5
  (st : AdaxClimate.state) (pre post : list value) (w' : AdaxAPI.world) :
  AdaxClimate._room_id (AdaxClimate.self st) = VInt 5 ->
  AdaxAPI.get_rooms net (AdaxClimate.world st) = (Return (VList (pre ++ room5 :: post)), w') ->
  forallb (other_room (VInt 5)) pre = true ->
  update st =
  (Return tt,
   {| AdaxClimate.self :=
        {| AdaxClimate._room := AdaxClimate._room (AdaxClimate.self st);
           AdaxClimate._room_id := AdaxClimate._room_id (AdaxClimate.self st);
           AdaxClimate._name := AdaxClimate._name (AdaxClimate.self st);
           AdaxClimate._current_temperature := VFloat f21_37;
           AdaxClimate._target_temperature := VFloat f22_0;
           AdaxClimate._hvac_mode := AdaxClimate._hvac_mode (AdaxClimate.self st) |};
      AdaxClimate.world := w' |}).
Proof.
  intros Hid Hrooms Hpre. rewrite (update_run st _ w' Hrooms).
  rewrite update_loop_skip by (cbn [AdaxClimate.self]; rewrite Hid; exact Hpre).
  unfold room5. cbn [AdaxClimate.update_loop]. run. cbn [dict_get String.eqb Ascii.eqb Bool.eqb].
  assert (Hmatch : py_eq (VInt 5) (AdaxClimate._room_id (AdaxClimate.self st)) = true)
    by (rewrite Hid; reflexivity).
  rewrite Hmatch. reflexivity.
Qed.

(** C5: when [get_rooms] returns a list of rooms none of which has the
    id of the device, the empty list included, [update] returns
    normally and leaves the device as it was. *)
Theorem update_without_entry
  (st : AdaxClimate.state) (rooms : list value) (w' : AdaxAPI.world) :
  AdaxAPI.get_rooms net (AdaxClimate.world st) = (Return (VList rooms), w') ->
  forallb (other_room (AdaxClimate._room_id (AdaxClimate.self st))) rooms = true ->
  update st = (Return tt, {| AdaxClimate.self := AdaxClimate.self st;
                             AdaxClimate.world := w' |}).
Proof.
  intros Hrooms Hother. rewrite (update_run st _ w' Hrooms).
  rewrite <- (app_nil_r rooms). rewrite update_loop_skip by exact Hother.
  reflexivity.
Qed.

(** C6: [set_temperature] without a temperature (the keyword missing,
    or None) returns at once: the device, the client and the trace are
    unchanged, so no request went out. *)
Theorem set_target_without_temperature
  (kwargs : list (string * value)) (st : AdaxClimate.state) :
  dict_get kwargs "temperature" VNone = VNone ->
  set_target kwargs st = (Return tt, st).
Proof.
  intros H. unfold AdaxClimate.set_temperature. rewrite H. reflexivity.
Qed.

(** C7: with a temperature [t], when the client's [set_temperature]
    returns True the device stores [t] as its target temperature and
    asks the host for a state update; when it returns False the device
    is unchanged; in both cases the call returns normally. *)
Theorem set_target_follows_service
  (kwargs : list (string * value)) (st : AdaxClimate.state)
  (t : value) (ok : bool) (w' : AdaxAPI.world) :
  dict_get kwargs "temperature" VNone = t ->
  t <> VNone ->
  AdaxAPI.set_temperature net float_of_str
    (AdaxClimate._room_id (AdaxClimate.self st)) t (AdaxClimate.world st) = (Return ok, w') ->
  set_target kwargs st =
  (Return tt,
   if ok then
     {| AdaxClimate.self :=
          {| AdaxClimate._room := AdaxClimate._room (AdaxClimate.self st);
             AdaxClimate._room_id := AdaxClimate._room_id (AdaxClimate.self st);
             AdaxClimate._name := AdaxClimate._name (AdaxClimate.self st);
             AdaxClimate._current_temperature := AdaxClimate._current_temperature (AdaxClimate.self st);
             AdaxClimate._target_temperature := t;
             AdaxClimate._hvac_mode := AdaxClimate._hvac_mode (AdaxClimate.self st) |};
        AdaxClimate.world :=
          {| AdaxAPI.client := AdaxAPI.client w';
             AdaxAPI.trace := AdaxAPI.trace w' ++ [ScheduleUpdateHaState] |} |}
   else {| AdaxClimate.self := AdaxClimate.self st; AdaxClimate.world := w' |}).
Proof.
  intros Ht Hpresent Hservice. unfold AdaxClimate.set_temperature. rewrite Ht.
  destruct t; try contradiction; run; rewrite Hservice; destruct ok; reflexivity.
Qed.

(** What the scan does at the entry of the device's own room: the mode
    stays, and a field whose key the entry lacks stays. *)
Lemma update_loop_at_entry
  (st : AdaxClimate.state) (items : list (string * value)) (post : list value) :
  py_eq (dict_get items "id" VNone) (AdaxClimate._room_id (AdaxClimate.self st)) = true ->
  let d := AdaxClimate.self st in
  let d' := AdaxClimate.self (snd (update_loop (VDict items :: post) st)) in
  AdaxClimate._hvac_mode d' = AdaxClimate._hvac_mode d
  /\ (dict_contains items "temperature" = false ->
      AdaxClimate._current_temperature d' = AdaxClimate._current_temperature d)
  /\ (dict_contains items "targetTemperature" = false ->
      AdaxClimate._target_temperature d' = AdaxClimate._target_temperature d).
Proof.
  intros Hid. cbn [AdaxClimate.update_loop]. run. rewrite Hid.
  destruct (dict_contains items "temperature");
    [destruct (py_float float_of_str (dict_get items "temperature" (VInt 0)))|];
    (destruct (dict_contains items "targetTemperature");
     [destruct (py_float float_of_str (dict_get items "targetTemperature" (VInt 0)))|]);
    cbn; repeat split; intros; solve [reflexivity | discriminate].
Qed.

(** C10: when the scan of [update] reaches the entry of the device's
    room, a current temperature whose key "temperature" the entry lacks
    is left as it was, and so is a target temperature whose key
    "targetTemperature" the entry lacks. *)
Theorem update_keeps_field_without_key
  (st : AdaxClimate.state) (pre post : list value)
  (items : list (string * value)) (w' : AdaxAPI.world) :
  AdaxAPI.get_rooms net (AdaxClimate.world st)
    = (Return (VList (pre ++ VDict items :: post)), w') ->
  forallb (other_room (AdaxClimate._room_id (AdaxClimate.self st))) pre = true ->
  py_eq (dict_get items "id" VNone) (AdaxClimate._room_id (AdaxClimate.self st)) = true ->
  (dict_contains items "temperature" = false ->
   AdaxClimate.current_temperature (AdaxClimate.self (snd (update st)))
   = AdaxClimate.current_temperature (AdaxClimate.self st))
  /\ (dict_contains items "targetTemperature" = false ->
      AdaxClimate.target_temperature (AdaxClimate.self (snd (update st)))
      = AdaxClimate.target_temperature (AdaxClimate.self st)).
Proof.
  intros Hrooms Hpre Hid. rewrite (update_run st _ w' Hrooms).
  rewrite update_loop_skip by exact Hpre.
  apply (update_loop_at_entry
           {| AdaxClimate.self := AdaxClimate.self st; AdaxClimate.world := w' |}
           items post Hid).
Qed.

(** The scan never writes the mode. *)
Lemma update_loop_mode (rooms : list value) (st : AdaxClimate.state) :
  AdaxClimate._hvac_mode (AdaxClimate.self (snd (update_loop rooms st)))
  = AdaxClimate._hvac_mode (AdaxClimate.self st).
Proof.
  induction rooms as [|entry rooms IH]; [reflexivity|].
  destruct entry; try reflexivity.
  destruct (py_eq (dict_get items "id" VNone)
                  (AdaxClimate._room_id (AdaxClimate.self st))) eqn:Hid.
  - exact (proj1 (update_loop_at_entry st items rooms Hid)).
  - cbn [AdaxClimate.update_loop]. run. rewrite Hid. exact IH.
Qed.

Lemma update_mode (st : AdaxClimate.state) :
  AdaxClimate._hvac_mode (AdaxClimate.self (snd (update st)))
  = AdaxClimate._hvac_mode (AdaxClimate.self st).
Proof.
  unfold AdaxClimate.update. run.
  destruct (AdaxAPI.get_rooms net (AdaxClimate.world st)) as [[rooms | err] w'];
    [|reflexivity].
  destruct (py_iter rooms) as [items | err]; [|reflexivity].
  exact (update_loop_mode items _).
Qed.

Lemma set_target_mode (kwargs : list (string * value)) (st : AdaxClimate.state) :
  AdaxClimate._hvac_mode (AdaxClimate.self (snd (set_target kwargs st)))
  = AdaxClimate._hvac_mode (AdaxClimate.self st).
Proof.
  unfold AdaxClimate.set_temperature.
  destruct (dict_get kwargs "temperature" VNone) eqn:Ht; try reflexivity; run;
    match goal with
    | |- context [AdaxAPI.set_temperature ?n ?p ?r ?t ?w] =>
        destruct (AdaxAPI.set_temperature n p r t w) as [[[|] | err] w']
    end; reflexivity.
Qed.

Lemma run_operations_mode (ops : list operation) (st : AdaxClimate.state) :
  AdaxClimate._hvac_mode
    (AdaxClimate.self (run_operations net float_of_str ops st))
  = AdaxClimate._hvac_mode (AdaxClimate.self st).
Proof.
  revert st. induction ops as [|op ops IH]; intros st; [reflexivity|].
  unfold run_operations in *. cbn [fold_left]. rewrite IH.
  destruct op; cbn [run_operation].
  - apply update_mode.
  - apply set_target_mode.
  - reflexivity.
Qed.

(** C9: a device is built in mode HEAT and is in mode HEAT after any
    sequence of polls and set-point calls, whatever they return and
    whatever happens to the shared client in between; OFF is listed in
    [hvac_modes] and is never the mode. *)
Theorem hvac_mode_always_heat
  (room : value) (d : AdaxClimate.t) (w : AdaxAPI.world) (ops : list operation) :
  AdaxClimate.__init__ room = Return d ->
  AdaxClimate.hvac_mode d = HVAC_MODE_HEAT
  /\ AdaxClimate.hvac_mode
       (AdaxClimate.self
          (run_operations net float_of_str ops
             {| AdaxClimate.self := d; AdaxClimate.world := w |})) = HVAC_MODE_HEAT
  /\ AdaxClimate.hvac_modes d = [HVAC_MODE_OFF; HVAC_MODE_HEAT].
Proof.
  intros Hinit.
  assert (Hheat : AdaxClimate._hvac_mode d = HVAC_MODE_HEAT).
  { destruct room; try discriminate Hinit.
    cbn [AdaxClimate.__init__] in Hinit. injection Hinit as <-. reflexivity. }
  split; [exact Hheat|]. split; [|reflexivity].
  unfold AdaxClimate.hvac_mode. rewrite run_operations_mode. exact Hheat.
Qed.

End DeviceProperties.

(** ** Concrete runs *)

(** Without a connection the exchange for user/pw fails closed. *)
Lemma refresh_token_fail_closed_run :
  request_token net_down "https://api-1.adax.no/client-api/auth/token"
                (Some "user") (Some "pw") [] = Raise (LibraryError "ConnectionError")
  /\ AdaxAPI.refresh_token net_down (world_of (Some "stale") (Some "user") (Some "pw")) =
     (Return tt,
      {| AdaxAPI.client := client_of None (Some "user") (Some "pw");
         AdaxAPI.trace :=
           [RequestToken "https://api-1.adax.no/client-api/auth/token" (Some "user") (Some "pw");
            LogError "Fel vid erhållande av token: %s"
                     [ArgError (LibraryError "ConnectionError")]] |}).
Proof.
  split; [reflexivity|].
  exact (refresh_token_fail_closed net_down
           (world_of (Some "stale") (Some "user") (Some "pw"))
           (LibraryError "ConnectionError") eq_refl).
Defined.

(** A client with a password only never reaches the cloud. *)
Lemma get_rooms_without_credentials_run :
  exists new,
    AdaxAPI.get_rooms (net_serving (VList [room5])) (world_of None None (Some "pw")) =
      (Return (VList []),
       {| AdaxAPI.client := client_of None None (Some "pw"); AdaxAPI.trace := [] ++ new |})
    /\ existsb is_network_call new = false.
Proof.
  exact (get_rooms_without_credentials (net_serving (VList [room5]))
           (world_of None None (Some "pw")) eq_refl eq_refl).
Defined.

(** Room 5 served after room 7. *)
Lemma update_reads_room5_run :
  AdaxClimate.update (net_serving (VList [room7; room5])) no_text_floats (state5 secret_world) =
  (Return tt,
   {| AdaxClimate.self :=
        {| AdaxClimate._room := VDict [("id", VInt 5)];
           AdaxClimate._room_id := VInt 5;
           AdaxClimate._name := AdaxElement (VInt 5);
           AdaxClimate._current_temperature := VFloat f21_37;
           AdaxClimate._target_temperature := VFloat f22_0;
           AdaxClimate._hvac_mode := HVAC_MODE_HEAT |};
      AdaxClimate.world := secret_world_after_get |}).
Proof.
  exact (update_reads_room5 (net_serving (VList [room7; room5])) no_text_floats
           (state5 secret_world) [room7] [] secret_world_after_get
           eq_refl eq_refl eq_refl).
Defined.

(** Only room 7 served. *)
Lemma update_without_entry_run :
  AdaxClimate.update (net_serving (VList [room7])) no_text_floats (state5 secret_world) =
  (Return tt, state5 secret_world_after_get).
Proof.
  exact (update_without_entry (net_serving (VList [room7])) no_text_floats
           (state5 secret_world) [room7] secret_world_after_get eq_refl eq_refl).
Defined.

(** A service call that carries a mode and no temperature. *)
Lemma set_target_without_temperature_run :
  AdaxClimate.set_temperature (net_serving (VList [room5])) no_text_floats
    [("hvac_mode", VStr "heat")] (state5 secret_world)
  = (Return tt, state5 secret_world).
Proof.
  exact (set_target_without_temperature (net_serving (VList [room5])) no_text_floats
           [("hvac_mode", VStr "heat")] (state5 secret_world) eq_refl).
Defined.

(** A set point of 21.5 that the cloud accepts. *)
Lemma set_target_follows_service_run :
  AdaxClimate.set_temperature (net_serving (VList [room5])) no_text_floats
    [("temperature", VFloat f21_5)] (state5 secret_world)
  = (Return tt,
     {| AdaxClimate.self :=
          {| AdaxClimate._room := VDict [("id", VInt 5)];
             AdaxClimate._room_id := VInt 5;
             AdaxClimate._name := AdaxElement (VInt 5);
             AdaxClimate._current_temperature := VNone;
             AdaxClimate._target_temperature := VFloat f21_5;
             AdaxClimate._hvac_mode := HVAC_MODE_HEAT |};
        AdaxClimate.world :=
          {| AdaxAPI.client := client_of (Some "secret") None None;
             AdaxAPI.trace :=
               [HttpPost control_url (control_payload (VInt 5) 2150)
                         [("Authorization", "Bearer secret")];
                ScheduleUpdateHaState] |} |}).
Proof.
  refine (set_target_follows_service (net_serving (VList [room5])) no_text_floats
            [("temperature", VFloat f21_5)] (state5 secret_world)
            (VFloat f21_5) true
            {| AdaxAPI.client := client_of (Some "secret") None None;
               AdaxAPI.trace :=
                 [HttpPost control_url (control_payload (VInt 5) 2150)
                           [("Authorization", "Bearer secret")]] |}
            eq_refl _ eq_refl).
  discriminate.
Defined.

(** The same set point refused by the cloud: the device keeps its state
    and the call returns. *)
Lemma set_target_refused_run :
  AdaxClimate.set_temperature net_rejecting no_text_floats
    [("temperature", VFloat f21_5)] (state5 secret_world)
  = (Return tt,
     state5
       {| AdaxAPI.client := client_of (Some "secret") None None;
          AdaxAPI.trace :=
            [HttpPost control_url (control_payload (VInt 5) 2150)
                      [("Authorization", "Bearer secret")];
             LogError "Fel vid ändring av temperatur för rum %s: %s"
                      [ArgValue (VInt 5); ArgError (LibraryError "HTTPError")]] |}).
Proof. vm_compute. reflexivity. Qed.

(** A device polled, set, polled again while the client loses its token
    in between. *)
Lemma hvac_mode_always_heat_run :
  AdaxClimate.__init__ (VDict [("id", VInt 5)]) = Return device5
  /\ AdaxClimate.hvac_mode device5 = HVAC_MODE_HEAT
  /\ AdaxClimate.hvac_mode
       (AdaxClimate.self
          (run_operations (net_serving (VList [room5])) no_text_floats
             [Poll; SetTarget [("temperature", VFloat f21_5)];
              Elsewhere (fun w => {| AdaxAPI.client := client_of None None None;
                                     AdaxAPI.trace := AdaxAPI.trace w |});
              Poll]
             (state5 secret_world))) = HVAC_MODE_HEAT
  /\ AdaxClimate.hvac_modes device5 = [HVAC_MODE_OFF; HVAC_MODE_HEAT].
Proof.
  split; [reflexivity|].
  exact (hvac_mode_always_heat (net_serving (VList [room5])) no_text_floats
           (VDict [("id", VInt 5)]) device5 secret_world _ eq_refl).
Defined.

(** An entry for room 5 that carries a target and no temperature. *)
Lemma update_keeps_field_without_key_run :
  AdaxClimate.current_temperature
    (AdaxClimate.self
       (snd (AdaxClimate.update
               (net_serving (VList [room7; VDict [("id", VInt 5); ("targetTemperature", VInt 2200)]]))
               no_text_floats (state5 secret_world))))
  = AdaxClimate.current_temperature device5.
Proof.
  refine (proj1 (update_keeps_field_without_key
                   (net_serving (VList [room7; VDict [("id", VInt 5); ("targetTemperature", VInt 2200)]]))
                   no_text_floats (state5 secret_world) [room7] []
                   [("id", VInt 5); ("targetTemperature", VInt 2200)]
                   secret_world_after_get eq_refl eq_refl eq_refl) _).
  reflexivity.
Defined.

(** ** Further properties of the client *)

Section RequestProperties.

Variable net : network.
Variable float_of_str : string -> option float.

(** What [set_temperature] does once the refresh attempt is over. *)
Lemma set_temperature_run (room_id temperature : value) (w : AdaxAPI.world) :
  AdaxAPI.set_temperature net float_of_str room_id temperature w =
  let w1 := after_refresh net w in
  let self := AdaxAPI.client w1 in
  let logged ev := {| AdaxAPI.client := self; AdaxAPI.trace := AdaxAPI.trace w1 ++ ev |} in
  if negb (truthy (AdaxAPI._token self)) then
    (Return false,
     logged [LogError "Inget giltigt token, kontrollerna kan inte utföras!" []])
  else
    match hundredths_of float_of_str temperature with
    | Raise e => (Raise e, w1)
    | Return n =>
        let url := AdaxAPI._api_url self ++ "/rest/v1/control/" in
        let headers := [("Authorization", AdaxAPI.bearer (AdaxAPI._token self))] in
        let call := HttpPost url (control_payload room_id n) headers in
        let failed err :=
          (Return false,
           logged [call; LogError "Fel vid ändring av temperatur för rum %s: %s"
                                  [ArgValue room_id; ArgError err]]) in
        match http_post net url (control_payload room_id n) headers (AdaxAPI.trace w1) with
        | Raise err => failed err
        | Return r =>
            match raise_for_status r with
            | Some err => failed err
            | None => (Return true, logged [call])
            end
        end
    end.
Proof.
  unfold AdaxAPI.set_temperature.
  unfold bind at 1. unfold gets at 1.
  unfold bind at 1. rewrite refresh_attempt_run.
  generalize (after_refresh net w); intros w1. cbv zeta. run.
  destruct (negb (truthy (AdaxAPI._token (AdaxAPI.client w1)))); [reflexivity|].
  unfold hundredths_of. run.
  destruct (py_float float_of_str temperature) as [f | e]; [|reflexivity].
  destruct (int_of_float (fmul f (float_of_Z 100))) as [n | e]; [|reflexivity].
  destruct w1 as [self tr]; cbn [AdaxAPI.client AdaxAPI.trace].
  fold (control_payload room_id n).
  destruct (http_post net _ _ _ _) as [r | err]; run.
  - destruct (raise_for_status r) as [err|]; run.
    + rewrite <- app_assoc; reflexivity.
    + reflexivity.
  - rewrite <- app_assoc; reflexivity.
Qed.

(** The refresh attempt keeps the base URL and the credentials. *)
Lemma after_refresh_frame (w : AdaxAPI.world) :
  AdaxAPI._api_url (AdaxAPI.client (after_refresh net w)) = AdaxAPI._api_url (AdaxAPI.client w)
  /\ AdaxAPI._client_id (AdaxAPI.client (after_refresh net w))
     = AdaxAPI._client_id (AdaxAPI.client w)
  /\ AdaxAPI._client_password (AdaxAPI.client (after_refresh net w))
     = AdaxAPI._client_password (AdaxAPI.client w).
Proof.
  unfold after_refresh.
  destruct (AdaxAPI.needs_refresh (AdaxAPI.client w)); [|repeat split].
  rewrite refresh_token_run. cbn [snd].
  destruct (request_token net _ _ _ _); repeat split.
Qed.

(** The world that [get_rooms] leaves has the client of the refresh
    attempt. *)
Lemma get_rooms_client (w : AdaxAPI.world) :
  AdaxAPI.client (snd (AdaxAPI.get_rooms net w)) = AdaxAPI.client (after_refresh net w).
Proof.
  rewrite get_rooms_run. cbv zeta.
  generalize (after_refresh net w); intros w1.
  destruct (negb (truthy (AdaxAPI._token (AdaxAPI.client w1)))); [reflexivity|].
  destruct (http_get net _ _ _) as [r | err]; [|reflexivity].
  destruct (raise_for_status r); [reflexivity|].
  destruct (json r) as [[]|]; reflexivity.
Qed.

Lemma set_temperature_client (room_id temperature : value) (w : AdaxAPI.world) :
  AdaxAPI.client (snd (AdaxAPI.set_temperature net float_of_str room_id temperature w))
  = AdaxAPI.client (after_refresh net w).
Proof.
  rewrite set_temperature_run. cbv zeta.
  generalize (after_refresh net w); intros w1.
  destruct (negb (truthy (AdaxAPI._token (AdaxAPI.client w1)))); [reflexivity|].
  destruct (hundredths_of float_of_str temperature); [|reflexivity].
  destruct (http_post net _ _ _ _) as [r | err]; [|reflexivity].
  destruct (raise_for_status r); reflexivity.
Qed.

(** X1: the only exceptions that leave [AdaxAPI.set_temperature] are
    those of converting the temperature, and only a client that holds a
    token after the refresh attempt gets that far; a failure of the
    transport or of the status check never escapes. *)
Theorem set_temperature_raises_only_on_conversion
  (room_id temperature : value) (w : AdaxAPI.world) :
  match fst (AdaxAPI.set_temperature net float_of_str room_id temperature w) with
  | Raise e =>
      truthy (AdaxAPI._token (AdaxAPI.client (after_refresh net w))) = true
      /\ hundredths_of float_of_str temperature = Raise e
  | Return _ =>
      truthy (AdaxAPI._token (AdaxAPI.client (after_refresh net w))) = false
      \/ exists n, hundredths_of float_of_str temperature = Return n
  end.
Proof.
  rewrite set_temperature_run. cbv zeta.
  generalize (after_refresh net w); intros w1.
  destruct (truthy (AdaxAPI._token (AdaxAPI.client w1))); cbn [negb fst];
    [|left; reflexivity].
  destruct (hundredths_of float_of_str temperature) as [n | e]; cbn [fst].
  - destruct (http_post net _ _ _ _) as [r | err];
      [destruct (raise_for_status r)|]; right; exists n; reflexivity.
  - split; reflexivity.
Qed.

(** X2: a client that holds a token and is given a convertible
    temperature returns True exactly when the POST comes back with a
    response that passes the status check; the client object is the same
    afterwards, so a refused token is kept. *)
Theorem set_temperature_true_iff_post_ok
  (room_id temperature : value) (w : AdaxAPI.world) (n : Z) :
  truthy (AdaxAPI._token (AdaxAPI.client w)) = true ->
  hundredths_of float_of_str temperature = Return n ->
  fst (AdaxAPI.set_temperature net float_of_str room_id temperature w)
    = Return (control_post_succeeds net w room_id n)
  /\ AdaxAPI.client (snd (AdaxAPI.set_temperature net float_of_str room_id temperature w))
     = AdaxAPI.client w.
Proof.
  intros Htok Hn. rewrite set_temperature_run. cbv zeta.
  rewrite (after_refresh_with_token net w Htok), Htok, Hn. cbn [negb].
  unfold control_post_succeeds.
  destruct (http_post net _ _ _ _) as [r | err];
    [destruct (raise_for_status r)|]; split; reflexivity.
Qed.

(** X4: a client that holds a token is not modified by [get_rooms] nor
    by [set_temperature], whatever the network answers: no request makes
    it ask for a new token. *)
Theorem requests_keep_a_held_token
  (room_id temperature : value) (w : AdaxAPI.world) :
  truthy (AdaxAPI._token (AdaxAPI.client w)) = true ->
  AdaxAPI.client (snd (AdaxAPI.get_rooms net w)) = AdaxAPI.client w
  /\ AdaxAPI.client (snd (AdaxAPI.set_temperature net float_of_str room_id temperature w))
     = AdaxAPI.client w.
Proof.
  intros Htok. rewrite get_rooms_client, set_temperature_client.
  rewrite (after_refresh_with_token net w Htok). split; reflexivity.
Qed.

(** X5: no method of the client changes its base URL, its client id or
    its client password. *)
Theorem client_methods_keep_credentials
  (room_id temperature : value) (w : AdaxAPI.world) :
  let same (w' : AdaxAPI.world) :=
    AdaxAPI._api_url (AdaxAPI.client w') = AdaxAPI._api_url (AdaxAPI.client w)
    /\ AdaxAPI._client_id (AdaxAPI.client w') = AdaxAPI._client_id (AdaxAPI.client w)
    /\ AdaxAPI._client_password (AdaxAPI.client w')
       = AdaxAPI._client_password (AdaxAPI.client w) in
  same (snd (AdaxAPI.refresh_token net w))
  /\ same (snd (AdaxAPI.get_rooms net w))
  /\ same (snd (AdaxAPI.set_temperature net float_of_str room_id temperature w)).
Proof.
  cbv beta zeta. rewrite get_rooms_client, set_temperature_client.
  split; [|split; apply after_refresh_frame].
  rewrite refresh_token_run. cbn [snd].
  destruct (request_token net _ _ _ _); repeat split.
Qed.

End RequestProperties.

Section TokenFlow.

Variable net : network.

Lemma truthy_some (tok : string) : tok <> "" -> truthy (Some tok) = true.
Proof.
  intros H. cbn [truthy]. apply negb_true_iff, String.eqb_neq, H.
Qed.

(** X6: a client without a token and with both credentials asks for a
    token first, and when the exchange grants a non-empty token the GET of
    the content endpoint that follows carries it as the bearer; the token
    is stored. *)
Theorem get_rooms_sends_granted_token (w : AdaxAPI.world) (tok : string) :
  AdaxAPI.needs_refresh (AdaxAPI.client w) = true ->
  request_token net (AdaxAPI._api_url (AdaxAPI.client w) ++ "/auth/token")
                (AdaxAPI._client_id (AdaxAPI.client w))
                (AdaxAPI._client_password (AdaxAPI.client w))
                (AdaxAPI.trace w) = Return (Some tok) ->
  tok <> "" ->
  exists rooms log,
    AdaxAPI.get_rooms net w =
    (Return rooms,
     {| AdaxAPI.client := AdaxAPI.with_token (Some tok) (AdaxAPI.client w);
        AdaxAPI.trace :=
          AdaxAPI.trace w
          ++ RequestToken (AdaxAPI._api_url (AdaxAPI.client w) ++ "/auth/token")
                          (AdaxAPI._client_id (AdaxAPI.client w))
                          (AdaxAPI._client_password (AdaxAPI.client w))
             :: LogDebug "Token erhållen: %s" [ArgToken (Some tok)]
             :: HttpGet (AdaxAPI._api_url (AdaxAPI.client w) ++ "/rest/v1/content/")
                        [("Authorization", "Bearer " ++ tok)]
             :: log |}).
Proof.
  intros Hneed Hgrant Htok. rewrite get_rooms_run. cbv zeta.
  unfold after_refresh. rewrite Hneed, refresh_token_run. cbv zeta. rewrite Hgrant.
  cbn [snd AdaxAPI.client AdaxAPI.trace AdaxAPI.with_token AdaxAPI._token AdaxAPI._api_url].
  rewrite (truthy_some tok Htok). cbn [negb AdaxAPI.bearer].
  destruct (http_get net _ _ _) as [r | err].
  - destruct (raise_for_status r) as [err|].
    + eexists _, [_]. rewrite <- app_assoc. reflexivity.
    + destruct (json r) as [[]|]; eexists _, _; rewrite <- app_assoc; reflexivity.
  - eexists _, [_]. rewrite <- app_assoc. reflexivity.
Qed.

(** X7: when the exchange raises, [get_rooms] sends no GET and returns
    the empty list; the client is left without a token and with its
    credentials, so the next request asks for a token again. *)
Theorem get_rooms_after_failed_exchange (w : AdaxAPI.world) (err : exn) :
  AdaxAPI.needs_refresh (AdaxAPI.client w) = true ->
  request_token net (AdaxAPI._api_url (AdaxAPI.client w) ++ "/auth/token")
                (AdaxAPI._client_id (AdaxAPI.client w))
                (AdaxAPI._client_password (AdaxAPI.client w))
                (AdaxAPI.trace w) = Raise err ->
  AdaxAPI.get_rooms net w =
  (Return (VList []),
   {| AdaxAPI.client := AdaxAPI.with_token None (AdaxAPI.client w);
      AdaxAPI.trace :=
        AdaxAPI.trace w
        ++ [RequestToken (AdaxAPI._api_url (AdaxAPI.client w) ++ "/auth/token")
                         (AdaxAPI._client_id (AdaxAPI.client w))
                         (AdaxAPI._client_password (AdaxAPI.client w));
            LogError "Fel vid erhållande av token: %s" [ArgError err];
            LogError "Inget giltigt token, kontrollera autentiseringsuppgifterna!" []] |})
  /\ AdaxAPI.needs_refresh (AdaxAPI.with_token None (AdaxAPI.client w)) = true.
Proof.
  intros Hneed Hfail. rewrite get_rooms_run. cbv zeta.
  unfold after_refresh. rewrite Hneed, refresh_token_run. cbv zeta. rewrite Hfail.
  cbn [snd AdaxAPI.client AdaxAPI.trace AdaxAPI.with_token AdaxAPI._token truthy negb].
  rewrite <- app_assoc. split; [reflexivity|].
  unfold AdaxAPI.needs_refresh in *.
  cbn [AdaxAPI.with_token AdaxAPI._token AdaxAPI._client_id AdaxAPI._client_password
       truthy negb andb].
  apply andb_true_iff in Hneed. destruct Hneed as [Hneed Hpw].
  apply andb_true_iff in Hneed. destruct Hneed as [_ Hid].
  rewrite Hid, Hpw. reflexivity.
Qed.

(** X8: an exchange that returns without an access token (None, or the
    empty string) is no error for the refresh, which logs it as obtained;
    [get_rooms] then finds no token, sends no GET and returns the empty
    list. *)
Theorem get_rooms_after_empty_grant (w : AdaxAPI.world) (granted : option string) :
  AdaxAPI.needs_refresh (AdaxAPI.client w) = true ->
  request_token net (AdaxAPI._api_url (AdaxAPI.client w) ++ "/auth/token")
                (AdaxAPI._client_id (AdaxAPI.client w))
                (AdaxAPI._client_password (AdaxAPI.client w))
                (AdaxAPI.trace w) = Return granted ->
  truthy granted = false ->
  AdaxAPI.get_rooms net w =
  (Return (VList []),
   {| AdaxAPI.client := AdaxAPI.with_token granted (AdaxAPI.client w);
      AdaxAPI.trace :=
        AdaxAPI.trace w
        ++ [RequestToken (AdaxAPI._api_url (AdaxAPI.client w) ++ "/auth/token")
                         (AdaxAPI._client_id (AdaxAPI.client w))
                         (AdaxAPI._client_password (AdaxAPI.client w));
            LogDebug "Token erhållen: %s" [ArgToken granted];
            LogError "Inget giltigt token, kontrollera autentiseringsuppgifterna!" []] |}).
Proof.
  intros Hneed Hgrant Hempty. rewrite get_rooms_run. cbv zeta.
  unfold after_refresh. rewrite Hneed, refresh_token_run. cbv zeta. rewrite Hgrant.
  cbn [snd AdaxAPI.client AdaxAPI.trace AdaxAPI.with_token AdaxAPI._token].
  rewrite Hempty. cbn [negb]. rewrite <- app_assoc. reflexivity.
Qed.

(** X9: with a token, a response that passes the status check and
    decodes to an object gives back what the object holds under "rooms",
    whatever it is, and the empty list when the key is missing; one GET
    is sent and nothing is logged. *)
Theorem get_rooms_returns_rooms_member
  (w : AdaxAPI.world) (r : response) (items : list (string * value)) :
  truthy (AdaxAPI._token (AdaxAPI.client w)) = true ->
  http_get net (AdaxAPI._api_url (AdaxAPI.client w) ++ "/rest/v1/content/")
           [("Authorization", AdaxAPI.bearer (AdaxAPI._token (AdaxAPI.client w)))]
           (AdaxAPI.trace w) = Return r ->
  raise_for_status r = None ->
  json r = Return (VDict items) ->
  AdaxAPI.get_rooms net w =
  (Return (if dict_contains items "rooms" then dict_get items "rooms" VNone else VList []),
   {| AdaxAPI.client := AdaxAPI.client w;
      AdaxAPI.trace :=
        AdaxAPI.trace w
        ++ [HttpGet (AdaxAPI._api_url (AdaxAPI.client w) ++ "/rest/v1/content/")
                    [("Authorization", AdaxAPI.bearer (AdaxAPI._token (AdaxAPI.client w)))]] |}).
Proof.
  intros Htok Hget Hstatus Hjson. rewrite get_rooms_run. cbv zeta.
  rewrite (after_refresh_with_token net w Htok), Htok. cbn [negb].
  rewrite Hget, Hstatus, Hjson. f_equal. f_equal.
  clear. induction items as [|[k v] items IH]; [reflexivity|].
  cbn [dict_get dict_contains]. destruct (String.eqb k "rooms"); [reflexivity|exact IH].
Qed.

(** X10: a body that decodes to anything but an object (a list, a
    string, a number, null) makes [get_rooms] return the empty list and
    log the AttributeError. *)
Theorem get_rooms_body_not_an_object
  (w : AdaxAPI.world) (r : response) (data : value) :
  truthy (AdaxAPI._token (AdaxAPI.client w)) = true ->
  http_get net (AdaxAPI._api_url (AdaxAPI.client w) ++ "/rest/v1/content/")
           [("Authorization", AdaxAPI.bearer (AdaxAPI._token (AdaxAPI.client w)))]
           (AdaxAPI.trace w) = Return r ->
  raise_for_status r = None ->
  json r = Return data ->
  is_dict data = false ->
  AdaxAPI.get_rooms net w =
  (Return (VList []),
   {| AdaxAPI.client := AdaxAPI.client w;
      AdaxAPI.trace :=
        AdaxAPI.trace w
        ++ [HttpGet (AdaxAPI._api_url (AdaxAPI.client w) ++ "/rest/v1/content/")
                    [("Authorization", AdaxAPI.bearer (AdaxAPI._token (AdaxAPI.client w)))];
            LogError "Fel vid hämtning av rum: %s" [ArgError AttributeError]] |}).
Proof.
  intros Htok Hget Hstatus Hjson Hdata. rewrite get_rooms_run. cbv zeta.
  rewrite (after_refresh_with_token net w Htok), Htok. cbn [negb].
  rewrite Hget, Hstatus, Hjson. destruct data; try reflexivity; discriminate Hdata.
Qed.

(** X11: building a client never raises.  Given no token and both
    credentials it sends one token request for them, and nothing else,
    and stores the token of the exchange (None when the exchange
    raised); otherwise it calls nothing and stores the token it was
    given.  The base URL is the fixed one and the credentials are stored
    as given. *)
Theorem client_init_requests_token_when_needed
  (token client_id client_password : option string) (tr : list event) :
  let need := negb (truthy token) && truthy client_id && truthy client_password in
  let url := "https://api-1.adax.no/client-api/auth/token" in
  exists new,
    AdaxAPI.__init__ net token client_id client_password tr =
      (Return tt,
       {| AdaxAPI.client :=
            {| AdaxAPI._api_url := "https://api-1.adax.no/client-api";
               AdaxAPI._token :=
                 if need then
                   match request_token net url client_id client_password tr with
                   | Return granted => granted
                   | Raise _ => None
                   end
                 else token;
               AdaxAPI._client_id := client_id;
               AdaxAPI._client_password := client_password |};
          AdaxAPI.trace := tr ++ new |})
    /\ List.filter is_network_call new
       = if need then [RequestToken url client_id client_password] else [].
Proof.
  cbv zeta. unfold AdaxAPI.__init__.
  assert (Hneed : AdaxAPI.needs_refresh
                    {| AdaxAPI._api_url := "https://api-1.adax.no/client-api";
                       AdaxAPI._token := token;
                       AdaxAPI._client_id := client_id;
                       AdaxAPI._client_password := client_password |}
                  = negb (truthy token) && truthy client_id && truthy client_password)
    by reflexivity.
  rewrite <- Hneed. clear Hneed.
  destruct (AdaxAPI.needs_refresh _).
  - rewrite refresh_token_run. cbv zeta.
    cbn [AdaxAPI.client AdaxAPI.trace AdaxAPI._api_url AdaxAPI._client_id
         AdaxAPI._client_password].
    change ("https://api-1.adax.no/client-api" ++ "/auth/token")
      with "https://api-1.adax.no/client-api/auth/token".
    destruct (request_token net _ _ _ _); eexists; split; reflexivity.
  - exists []. rewrite app_nil_r. split; reflexivity.
Qed.

End TokenFlow.

(** ** Further properties of the device *)

Section DeviceBehaviour.

Variable net : network.
Variable float_of_str : string -> option float.

Abbreviation update := (AdaxClimate.update net float_of_str).
Abbreviation update_loop := (AdaxClimate.update_loop float_of_str).
Abbreviation set_target := (AdaxClimate.set_temperature net float_of_str).

Lemma dict_get_missing (items : list (string * value)) (key : string) (default : value) :
  dict_contains items key = false -> dict_get items key default = default.
Proof.
  induction items as [|[k v] items IH]; [reflexivity|].
  cbn [dict_contains dict_get]. destruct (String.eqb k key); [discriminate|exact IH].
Qed.

(** The scan touches neither the world nor what identifies the device. *)
Lemma update_loop_frame (rooms : list value) (st : AdaxClimate.state) :
  let st' := snd (update_loop rooms st) in
  AdaxClimate.world st' = AdaxClimate.world st
  /\ AdaxClimate._room (AdaxClimate.self st') = AdaxClimate._room (AdaxClimate.self st)
  /\ AdaxClimate._room_id (AdaxClimate.self st') = AdaxClimate._room_id (AdaxClimate.self st)
  /\ AdaxClimate._name (AdaxClimate.self st') = AdaxClimate._name (AdaxClimate.self st).
Proof.
  cbv zeta. induction rooms as [|entry rooms IH]; [repeat split|].
  destruct entry as [| | | | | |items]; try solve [repeat split; reflexivity].
  cbn [AdaxClimate.update_loop]. run.
  destruct (py_eq (dict_get items "id" VNone)
                  (AdaxClimate._room_id (AdaxClimate.self st))); [|exact IH].
  destruct (dict_contains items "temperature");
    [destruct (py_float float_of_str (dict_get items "temperature" (VInt 0)))|];
    (destruct (dict_contains items "targetTemperature");
     [destruct (py_float float_of_str (dict_get items "targetTemperature" (VInt 0)))|]);
    cbn; repeat split.
Qed.

(** X12: whatever [update] returns or raises, what it does to the client
    and to the trace is what its one call of [get_rooms] does: a poll
    sends at most one GET and never a POST. *)
Theorem update_effects_are_get_rooms (st : AdaxClimate.state) :
  AdaxClimate.world (snd (update st))
  = snd (AdaxAPI.get_rooms net (AdaxClimate.world st)).
Proof.
  unfold AdaxClimate.update. run.
  destruct (AdaxAPI.get_rooms net (AdaxClimate.world st)) as [[rooms | err] w'];
    [|reflexivity].
  destruct (py_iter rooms) as [items | err]; [|reflexivity].
  cbn [snd]. exact (proj1 (update_loop_frame items _)).
Qed.

(** X13: at the first entry whose id equals the device's, with both keys
    present and both values convertible, [update] stores the two
    quotients by 100 and returns; the entries after it are not looked
    at. *)
Theorem update_reads_first_match
  (st : AdaxClimate.state) (pre post : list value) (items : list (string * value))
  (w' : AdaxAPI.world) (f g : float) :
  AdaxAPI.get_rooms net (AdaxClimate.world st)
    = (Return (VList (pre ++ VDict items :: post)), w') ->
  forallb (other_room (AdaxClimate._room_id (AdaxClimate.self st))) pre = true ->
  py_eq (dict_get items "id" VNone) (AdaxClimate._room_id (AdaxClimate.self st)) = true ->
  dict_contains items "temperature" = true ->
  py_float float_of_str (dict_get items "temperature" (VInt 0)) = Return f ->
  dict_contains items "targetTemperature" = true ->
  py_float float_of_str (dict_get items "targetTemperature" (VInt 0)) = Return g ->
  update st =
  (Return tt,
   {| AdaxClimate.self :=
        {| AdaxClimate._room := AdaxClimate._room (AdaxClimate.self st);
           AdaxClimate._room_id := AdaxClimate._room_id (AdaxClimate.self st);
           AdaxClimate._name := AdaxClimate._name (AdaxClimate.self st);
           AdaxClimate._current_temperature := VFloat (fdiv f (float_of_Z 100));
           AdaxClimate._target_temperature := VFloat (fdiv g (float_of_Z 100));
           AdaxClimate._hvac_mode := AdaxClimate._hvac_mode (AdaxClimate.self st) |};
      AdaxClimate.world := w' |}).
Proof.
  intros Hrooms Hpre Hid Hcur Hf Htgt Hg. rewrite (update_run net float_of_str st _ w' Hrooms).
  rewrite update_loop_skip by exact Hpre.
  cbn [AdaxClimate.update_loop]. run. rewrite Hid, Hcur, Hf. run. rewrite Htgt, Hg.
  reflexivity.
Qed.

(** X14: when the matching entry has a "temperature" that cannot be
    converted (null, a list, text that is no number), [update] raises
    the conversion error and stores nothing: the target temperature of
    the entry is not read. *)
Theorem update_bad_temperature_aborts
  (st : AdaxClimate.state) (pre post : list value) (items : list (string * value))
  (w' : AdaxAPI.world) (e : exn) :
  AdaxAPI.get_rooms net (AdaxClimate.world st)
    = (Return (VList (pre ++ VDict items :: post)), w') ->
  forallb (other_room (AdaxClimate._room_id (AdaxClimate.self st))) pre = true ->
  py_eq (dict_get items "id" VNone) (AdaxClimate._room_id (AdaxClimate.self st)) = true ->
  dict_contains items "temperature" = true ->
  py_float float_of_str (dict_get items "temperature" (VInt 0)) = Raise e ->
  update st = (Raise e, {| AdaxClimate.self := AdaxClimate.self st;
                           AdaxClimate.world := w' |}).
Proof.
  intros Hrooms Hpre Hid Hcur Hf. rewrite (update_run net float_of_str st _ w' Hrooms).
  rewrite update_loop_skip by exact Hpre.
  cbn [AdaxClimate.update_loop]. run. rewrite Hid, Hcur, Hf. reflexivity.
Qed.

(** X15: when the temperature converts and the "targetTemperature" does
    not, [update] raises the conversion error after it has stored the
    current temperature: the device is half updated. *)
Theorem update_bad_target_is_partial
  (st : AdaxClimate.state) (pre post : list value) (items : list (string * value))
  (w' : AdaxAPI.world) (f : float) (e : exn) :
  AdaxAPI.get_rooms net (AdaxClimate.world st)
    = (Return (VList (pre ++ VDict items :: post)), w') ->
  forallb (other_room (AdaxClimate._room_id (AdaxClimate.self st))) pre = true ->
  py_eq (dict_get items "id" VNone) (AdaxClimate._room_id (AdaxClimate.self st)) = true ->
  dict_contains items "temperature" = true ->
  py_float float_of_str (dict_get items "temperature" (VInt 0)) = Return f ->
  dict_contains items "targetTemperature" = true ->
  py_float float_of_str (dict_get items "targetTemperature" (VInt 0)) = Raise e ->
  update st =
  (Raise e,
   {| AdaxClimate.self :=
        {| AdaxClimate._room := AdaxClimate._room (AdaxClimate.self st);
           AdaxClimate._room_id := AdaxClimate._room_id (AdaxClimate.self st);
           AdaxClimate._name := AdaxClimate._name (AdaxClimate.self st);
           AdaxClimate._current_temperature := VFloat (fdiv f (float_of_Z 100));
           AdaxClimate._target_temperature := AdaxClimate._target_temperature (AdaxClimate.self st);
           AdaxClimate._hvac_mode := AdaxClimate._hvac_mode (AdaxClimate.self st) |};
      AdaxClimate.world := w' |}).
Proof.
  intros Hrooms Hpre Hid Hcur Hf Htgt Hg. rewrite (update_run net float_of_str st _ w' Hrooms).
  rewrite update_loop_skip by exact Hpre.
  cbn [AdaxClimate.update_loop]. run. rewrite Hid, Hcur, Hf. run. rewrite Htgt, Hg.
  reflexivity.
Qed.

(** X16: when [get_rooms] returns something that cannot be iterated
    (None for a body with "rooms": null, a number, a boolean), [update]
    raises the TypeError and leaves the device as it was. *)
Theorem update_rooms_not_iterable
  (st : AdaxClimate.state) (rooms : value) (w' : AdaxAPI.world) (e : exn) :
  AdaxAPI.get_rooms net (AdaxClimate.world st) = (Return rooms, w') ->
  py_iter rooms = Raise e ->
  e = TypeError
  /\ update st = (Raise TypeError, {| AdaxClimate.self := AdaxClimate.self st;
                                      AdaxClimate.world := w' |}).
Proof.
  intros Hrooms Hiter.
  assert (He : e = TypeError) by (destruct rooms; cbn in Hiter; congruence).
  split; [exact He|]. subst e.
  unfold AdaxClimate.update. run. rewrite Hrooms, Hiter. reflexivity.
Qed.

(** X17: an entry that is no object, met before the device's own entry,
    makes [update] raise AttributeError and leave the device as it was,
    even when the device's entry follows. *)
Theorem update_entry_not_an_object
  (st : AdaxClimate.state) (pre post : list value) (bad : value) (w' : AdaxAPI.world) :
  AdaxAPI.get_rooms net (AdaxClimate.world st)
    = (Return (VList (pre ++ bad :: post)), w') ->
  forallb (other_room (AdaxClimate._room_id (AdaxClimate.self st))) pre = true ->
  is_dict bad = false ->
  update st = (Raise AttributeError, {| AdaxClimate.self := AdaxClimate.self st;
                                        AdaxClimate.world := w' |}).
Proof.
  intros Hrooms Hpre Hbad. rewrite (update_run net float_of_str st _ w' Hrooms).
  rewrite update_loop_skip by exact Hpre.
  destruct bad; try discriminate Hbad; reflexivity.
Qed.

(** X18: a device built from a room without an id has the room id None,
    and [update] takes the first entry that has no "id" key for its
    own. *)
Theorem update_matches_entry_without_id
  (st : AdaxClimate.state) (pre post : list value) (items : list (string * value))
  (w' : AdaxAPI.world) (f : float) :
  AdaxClimate._room_id (AdaxClimate.self st) = VNone ->
  AdaxAPI.get_rooms net (AdaxClimate.world st)
    = (Return (VList (pre ++ VDict items :: post)), w') ->
  forallb (other_room VNone) pre = true ->
  dict_contains items "id" = false ->
  dict_contains items "temperature" = true ->
  py_float float_of_str (dict_get items "temperature" (VInt 0)) = Return f ->
  dict_contains items "targetTemperature" = false ->
  update st =
  (Return tt,
   {| AdaxClimate.self :=
        {| AdaxClimate._room := AdaxClimate._room (AdaxClimate.self st);
           AdaxClimate._room_id := AdaxClimate._room_id (AdaxClimate.self st);
           AdaxClimate._name := AdaxClimate._name (AdaxClimate.self st);
           AdaxClimate._current_temperature := VFloat (fdiv f (float_of_Z 100));
           AdaxClimate._target_temperature := AdaxClimate._target_temperature (AdaxClimate.self st);
           AdaxClimate._hvac_mode := AdaxClimate._hvac_mode (AdaxClimate.self st) |};
      AdaxClimate.world := w' |}).
Proof.
  intros Hnone Hrooms Hpre Hid Hcur Hf Htgt.
  rewrite (update_run net float_of_str st _ w' Hrooms).
  rewrite update_loop_skip by (cbn [AdaxClimate.self]; rewrite Hnone; exact Hpre).
  cbn [AdaxClimate.update_loop]. run.
  assert (Hmatch : py_eq (dict_get items "id" VNone)
                         (AdaxClimate._room_id (AdaxClimate.self st)) = true)
    by (rewrite (dict_get_missing items "id" VNone Hid), Hnone; reflexivity).
  rewrite Hmatch, Hcur, Hf. run. rewrite Htgt. reflexivity.
Qed.

End DeviceBehaviour.

Section SetPointBehaviour.

Variable net : network.
Variable float_of_str : string -> option float.

Abbreviation set_target := (AdaxClimate.set_temperature net float_of_str).

(** What the device's [set_temperature] does with a temperature. *)
Lemma set_target_run (kwargs : list (string * value)) (st : AdaxClimate.state) (t : value) :
  dict_get kwargs "temperature" VNone = t ->
  t <> VNone ->
  set_target kwargs st =
  match AdaxAPI.set_temperature net float_of_str
          (AdaxClimate._room_id (AdaxClimate.self st)) t (AdaxClimate.world st) with
  | (Return true, w') =>
      (Return tt,
       {| AdaxClimate.self := AdaxClimate.with_target t (AdaxClimate.self st);
          AdaxClimate.world :=
            {| AdaxAPI.client := AdaxAPI.client w';
               AdaxAPI.trace := AdaxAPI.trace w' ++ [ScheduleUpdateHaState] |} |})
  | (Return false, w') =>
      (Return tt, {| AdaxClimate.self := AdaxClimate.self st; AdaxClimate.world := w' |})
  | (Raise e, w') =>
      (Raise e, {| AdaxClimate.self := AdaxClimate.self st; AdaxClimate.world := w' |})
  end.
Proof.
  intros Ht Hpresent. unfold AdaxClimate.set_temperature. rewrite Ht.
  destruct t; try contradiction; run;
    match goal with
    | |- context [AdaxAPI.set_temperature ?n ?p ?r ?t ?w] =>
        destruct (AdaxAPI.set_temperature n p r t w) as [[[|] | e] w']
    end; reflexivity.
Qed.

(** The device after [set_temperature] is the device before, up to its
    target temperature. *)
Lemma set_target_frame (kwargs : list (string * value)) (st : AdaxClimate.state) :
  AdaxClimate.self (snd (set_target kwargs st))
  = AdaxClimate.with_target
      (AdaxClimate._target_temperature (AdaxClimate.self (snd (set_target kwargs st))))
      (AdaxClimate.self st).
Proof.
  destruct (AdaxClimate.self st) as [room room_id name cur tgt mode] eqn:Hself.
  assert (Hsame : AdaxClimate.self st
                  = AdaxClimate.with_target (AdaxClimate._target_temperature (AdaxClimate.self st))
                                            (AdaxClimate.self st))
    by (rewrite Hself; reflexivity).
  rewrite <- Hself.
  destruct (dict_get kwargs "temperature" VNone) eqn:Ht;
    [unfold AdaxClimate.set_temperature; rewrite Ht; exact Hsame | ..];
    (rewrite (set_target_run kwargs st _ Ht) by discriminate;
     match goal with
     | |- context [AdaxAPI.set_temperature ?n ?p ?r ?t ?w] =>
         destruct (AdaxAPI.set_temperature n p r t w) as [[[|] | e] w']
     end; cbn [snd AdaxClimate.self]; try exact Hsame; rewrite Hself; reflexivity).
Qed.

(** X19: the device's [set_temperature] changes nothing of the device but
    the target temperature, whatever it is given and however it ends:
    room, room id, name, current temperature and mode are those of
    before. *)
Theorem set_target_changes_target_only
  (kwargs : list (string * value)) (st : AdaxClimate.state) :
  let d := AdaxClimate.self st in
  let d' := AdaxClimate.self (snd (set_target kwargs st)) in
  AdaxClimate._room d' = AdaxClimate._room d
  /\ AdaxClimate._room_id d' = AdaxClimate._room_id d
  /\ AdaxClimate._name d' = AdaxClimate._name d
  /\ AdaxClimate._current_temperature d' = AdaxClimate._current_temperature d
  /\ AdaxClimate._hvac_mode d' = AdaxClimate._hvac_mode d.
Proof.
  cbv zeta. rewrite (set_target_frame kwargs st). repeat split.
Qed.

(** X20: on a client that holds a token, a temperature that cannot be
    converted (text that is no number, a list, a NaN or an infinity)
    makes the device's [set_temperature] raise to the host; nothing is
    sent, logged or changed. *)
Theorem set_target_bad_temperature_raises
  (kwargs : list (string * value)) (st : AdaxClimate.state) (t : value) (e : exn) :
  dict_get kwargs "temperature" VNone = t ->
  t <> VNone ->
  truthy (AdaxAPI._token (AdaxAPI.client (AdaxClimate.world st))) = true ->
  hundredths_of float_of_str t = Raise e ->
  set_target kwargs st = (Raise e, st).
Proof.
  intros Ht Hpresent Htok Hbad. rewrite (set_target_run kwargs st t Ht Hpresent).
  rewrite set_temperature_run. cbv zeta.
  rewrite (after_refresh_with_token net _ Htok), Htok, Hbad. cbn [negb].
  destruct st; reflexivity.
Qed.

(** X22: an accepted set point is stored as the argument that was given,
    not as the hundredths that were sent: after a POST that passes the
    status check the target temperature is [t] itself, the body carried
    [int(float(t) * 100)] for the device's room id, and the host is asked
    for a state update. *)
Theorem set_target_accepted
  (kwargs : list (string * value)) (st : AdaxClimate.state) (t : value) (n : Z) :
  dict_get kwargs "temperature" VNone = t ->
  t <> VNone ->
  truthy (AdaxAPI._token (AdaxAPI.client (AdaxClimate.world st))) = true ->
  hundredths_of float_of_str t = Return n ->
  control_post_succeeds net (AdaxClimate.world st)
                        (AdaxClimate._room_id (AdaxClimate.self st)) n = true ->
  set_target kwargs st =
  (Return tt,
   let self := AdaxAPI.client (AdaxClimate.world st) in
   {| AdaxClimate.self :=
        {| AdaxClimate._room := AdaxClimate._room (AdaxClimate.self st);
           AdaxClimate._room_id := AdaxClimate._room_id (AdaxClimate.self st);
           AdaxClimate._name := AdaxClimate._name (AdaxClimate.self st);
           AdaxClimate._current_temperature := AdaxClimate._current_temperature (AdaxClimate.self st);
           AdaxClimate._target_temperature := t;
           AdaxClimate._hvac_mode := AdaxClimate._hvac_mode (AdaxClimate.self st) |};
      AdaxClimate.world :=
        {| AdaxAPI.client := self;
           AdaxAPI.trace :=
             AdaxAPI.trace (AdaxClimate.world st)
             ++ [HttpPost (AdaxAPI._api_url self ++ "/rest/v1/control/")
                          (control_payload (AdaxClimate._room_id (AdaxClimate.self st)) n)
                          [("Authorization", AdaxAPI.bearer (AdaxAPI._token self))];
                 ScheduleUpdateHaState] |} |}).
Proof.
  intros Ht Hpresent Htok Hn Hpost. rewrite (set_target_run kwargs st t Ht Hpresent).
  rewrite set_temperature_run. cbv zeta.
  rewrite (after_refresh_with_token net _ Htok), Htok, Hn. cbn [negb].
  unfold control_post_succeeds in Hpost.
  destruct (http_post net _ _ _ _) as [r | err]; [|discriminate Hpost].
  destruct (raise_for_status r); [discriminate Hpost|].
  cbn [AdaxAPI.client AdaxAPI.trace]. rewrite <- app_assoc. reflexivity.
Qed.

(** X23: no sequence of polls and set-point calls, with any changes of
    the shared client in between, changes the room, the room id or the
    name of a device. *)
Theorem device_identity_is_kept (ops : list operation) (st : AdaxClimate.state) :
  let d := AdaxClimate.self st in
  let d' := AdaxClimate.self (run_operations net float_of_str ops st) in
  AdaxClimate._room d' = AdaxClimate._room d
  /\ AdaxClimate._room_id d' = AdaxClimate._room_id d
  /\ AdaxClimate._name d' = AdaxClimate._name d.
Proof.
  cbv zeta. revert st. induction ops as [|op ops IH]; intros st; [repeat split|].
  unfold run_operations in *. cbn [fold_left].
  destruct (IH (run_operation net float_of_str st op)) as (-> & -> & ->). clear IH.
  destruct op; cbn [run_operation].
  - unfold AdaxClimate.update. run.
    destruct (AdaxAPI.get_rooms net (AdaxClimate.world st)) as [[rooms | err] w'];
      [|repeat split].
    destruct (py_iter rooms) as [items | err]; [|repeat split].
    cbn [snd]. exact (proj2 (update_loop_frame float_of_str items _)).
  - rewrite (set_target_frame kwargs st). repeat split.
  - repeat split.
Qed.

End SetPointBehaviour.

(** ** Properties of the platform setup *)

Section PlatformSetup.

Variable net : network.

Lemma client_init_returns (token client_id client_password : option string) (tr : list event) :
  fst (AdaxAPI.__init__ net token client_id client_password tr) = Return tt.
Proof.
  unfold AdaxAPI.__init__. destruct (AdaxAPI.needs_refresh _); [|reflexivity].
  rewrite refresh_token_run. reflexivity.
Qed.

Lemma configured_false (config : config) :
  negb (truthy (cfg_token config))
  && (negb (truthy (cfg_client_id config)) || negb (truthy (cfg_client_password config)))
  = negb (configured config).
Proof.
  unfold configured.
  destruct (truthy (cfg_token config)), (truthy (cfg_client_id config)),
    (truthy (cfg_client_password config)); reflexivity.
Qed.

(** [setup_platform] on a configuration that names its credentials. *)
Lemma setup_platform_run (config : config) (tr : list event) :
  configured config = true ->
  setup_platform net config tr =
  let room_id := cfg_room_id config in
  let (added, w) :=
    (if py_truthy room_id then
       rooms <- AdaxAPI.get_rooms net ;;
       items <- lift (py_iter rooms) ;;
       room_found <- lift (search_room room_id items VNone) ;;
       if py_truthy room_found then
         d <- lift (AdaxClimate.__init__ room_found) ;;
         ret [d]
       else
         AdaxAPI.emit (LogError "Inget rum med id %s hittades!" [ArgValue room_id]) ;;
         ret []
     else
       rooms <- AdaxAPI.get_rooms net ;;
       items <- lift (py_iter rooms) ;;
       entities <- lift (append_entities items []) ;;
       (if negb (py_truthy rooms) then
          AdaxAPI.emit
            (LogError
               "Inga Adax-element hittades. Kontrollera dina autentiseringsuppgifter och API-status!"
               [])
        else ret tt) ;;
       ret entities) (built_world net config tr) in
  Configured added w.
Proof.
  intros Hcfg. unfold setup_platform, built_world. cbv zeta.
  rewrite configured_false, Hcfg. cbn [negb].
  destruct (truthy (cfg_token config)).
  - pose proof (client_init_returns (cfg_token config) None None tr) as H.
    destruct (AdaxAPI.__init__ net (cfg_token config) None None tr) as [built w0].
    cbn [fst snd] in *. rewrite H. reflexivity.
  - pose proof (client_init_returns None (cfg_client_id config)
                                    (cfg_client_password config) tr) as H.
    destruct (AdaxAPI.__init__ net None (cfg_client_id config)
                               (cfg_client_password config) tr) as [built w0].
    cbn [fst snd] in *. rewrite H. reflexivity.
Qed.

(** The search passes over the entries of other rooms. *)
Lemma search_room_skip (room_id : value) (pre rest : list value) (found : value) :
  forallb (other_than_configured room_id) pre = true ->
  search_room room_id (pre ++ rest) found = search_room room_id rest found.
Proof.
  induction pre as [|entry pre IH]; intros H; [reflexivity|].
  cbn [forallb] in H. apply andb_true_iff in H. destruct H as [Hentry Hpre].
  destruct entry; try discriminate Hentry.
  cbn [other_than_configured] in Hentry. apply negb_true_iff in Hentry.
  cbn [app search_room]. rewrite Hentry. exact (IH Hpre).
Qed.

(** What the search returns: None, or an object whose id is the one
    looked for. *)
Lemma search_room_found (room_id : value) (rooms : list value) (v : value) :
  search_room room_id rooms VNone = Return v ->
  v = VNone
  \/ exists items, v = VDict items /\ py_eq_foreign (dict_get items "id" VNone) room_id = true.
Proof.
  induction rooms as [|entry rooms IH]; cbn [search_room]; intros H.
  - left. congruence.
  - destruct entry as [| | | | | |items]; try discriminate H.
    destruct (py_eq_foreign (dict_get items "id" VNone) room_id) eqn:Hid; [|exact (IH H)].
    right. exists items. split; [congruence|exact Hid].
Qed.

(** An object whose id equals a true value is itself true: it has a key. *)
Lemma matching_room_truthy (room_id : value) (items : list (string * value)) :
  py_truthy room_id = true ->
  py_eq_foreign (dict_get items "id" VNone) room_id = true ->
  py_truthy (VDict items) = true.
Proof.
  intros Htrue Hid. destruct items as [|kv items]; [|reflexivity].
  cbn [dict_get] in Hid. destruct room_id; try discriminate Hid. discriminate Htrue.
Qed.

Lemma device_init_object (items : list (string * value)) :
  AdaxClimate.__init__ (VDict items) = Return (fresh_device items).
Proof. reflexivity. Qed.

Lemma device_init_fresh (room : value) (d : AdaxClimate.t) :
  AdaxClimate.__init__ room = Return d -> is_fresh d = true.
Proof.
  destruct room; try discriminate. cbn [AdaxClimate.__init__].
  intros H. injection H as <-. reflexivity.
Qed.

(** Appending the devices of a list of rooms. *)
Lemma append_entities_spec (rooms : list value) (acc es : list AdaxClimate.t) :
  append_entities rooms acc = Return es ->
  exists ds, es = (acc ++ ds)%list
             /\ Forall2 (fun room d => AdaxClimate.__init__ room = Return d) rooms ds.
Proof.
  revert acc. induction rooms as [|room rooms IH]; cbn [append_entities]; intros acc H.
  - exists []. rewrite app_nil_r. split; [congruence|constructor].
  - destruct (AdaxClimate.__init__ room) as [d | e] eqn:Hd; [|discriminate H].
    destruct (IH _ H) as (ds & -> & Hds).
    exists (d :: ds). rewrite <- app_assoc. split; [reflexivity|].
    constructor; assumption.
Qed.


Lemma append_entities_bad (rooms : list value) (acc : list AdaxClimate.t) :
  existsb (fun room => negb (is_dict room)) rooms = true ->
  append_entities rooms acc = Raise AttributeError.
Proof.
  revert acc. induction rooms as [|room rooms IH]; cbn [append_entities existsb]; intros acc H.
  - discriminate H.
  - destruct room as [| | | | | |items]; try reflexivity.
    rewrite device_init_object. apply IH. exact H.
Qed.

(** [setup_platform] on a configuration without credentials. *)
Lemma setup_platform_unconfigured (config : config) (tr : list event) :
  configured config = false ->
  setup_platform net config tr =
  NotConfigured
    (tr ++ [LogError
              "Ange antingen 'token' eller både 'client_id' och 'client_password' i konfigurationen!"
              []]).
Proof.
  intros Hcfg. unfold setup_platform. cbv zeta. rewrite configured_false, Hcfg. reflexivity.
Qed.

End PlatformSetup.

Section PlatformDiscovery.

Variable net : network.

Lemma calls_within_app (a b c d : nat) (xs ys : list event) :
  calls_within a b xs = true ->
  calls_within c d ys = true ->
  calls_within (a + c) (b + d) (xs ++ ys) = true.
Proof.
  unfold calls_within. intros Hx Hy.
  apply andb_true_iff in Hx. destruct Hx as [Hx Hxp].
  apply andb_true_iff in Hx. destruct Hx as [Hxt Hxg].
  apply andb_true_iff in Hy. destruct Hy as [Hy Hyp].
  apply andb_true_iff in Hy. destruct Hy as [Hyt Hyg].
  apply Nat.leb_le in Hxt, Hxg, Hyt, Hyg.
  apply negb_true_iff in Hxp, Hyp.
  rewrite !filter_app, !length_app, existsb_app, Hxp, Hyp.
  apply andb_true_iff. split; [apply andb_true_iff; split; apply Nat.leb_le; lia|reflexivity].
Qed.

(** The refresh attempt sends at most one token request and nothing
    else. *)
Lemma after_refresh_calls (w : AdaxAPI.world) :
  exists new,
    AdaxAPI.trace (after_refresh net w) = (AdaxAPI.trace w ++ new)%list
    /\ calls_within 1 0 new = true.
Proof.
  unfold after_refresh.
  destruct (AdaxAPI.needs_refresh (AdaxAPI.client w)).
  - rewrite refresh_token_run. cbn [snd].
    destruct (request_token net _ _ _ _); eexists; split; reflexivity.
  - exists []. rewrite app_nil_r. split; reflexivity.
Qed.

(** [get_rooms] sends at most one token request and one GET, and no
    POST. *)
Lemma get_rooms_calls (w : AdaxAPI.world) :
  exists new,
    AdaxAPI.trace (snd (AdaxAPI.get_rooms net w)) = (AdaxAPI.trace w ++ new)%list
    /\ calls_within 1 1 new = true.
Proof.
  destruct (after_refresh_calls w) as (new0 & Htrace & Hnew0).
  assert (Hput : forall new1, calls_within 0 1 new1 = true ->
            exists new, ((AdaxAPI.trace w ++ new0) ++ new1 = AdaxAPI.trace w ++ new)%list
                        /\ calls_within 1 1 new = true).
  { intros new1 Hnew1. exists (new0 ++ new1)%list. rewrite app_assoc.
    split; [reflexivity|]. exact (calls_within_app 1 0 0 1 _ _ Hnew0 Hnew1). }
  rewrite get_rooms_run. cbv zeta. revert Htrace.
  generalize (after_refresh net w); intros w1 Htrace.
  destruct (negb (truthy (AdaxAPI._token (AdaxAPI.client w1))));
    [cbn [snd AdaxAPI.trace]; rewrite Htrace; apply Hput; reflexivity|].
  destruct (http_get net _ _ _) as [r | err];
    [destruct (raise_for_status r); [|destruct (json r) as [[]|]]|];
    cbn [snd AdaxAPI.trace]; rewrite Htrace; apply Hput; reflexivity.
Qed.

(** Building the client sends at most one token request and nothing
    else. *)
Lemma built_world_calls (config : config) (tr : list event) :
  exists new,
    AdaxAPI.trace (built_world net config tr) = (tr ++ new)%list
    /\ calls_within 1 0 new = true.
Proof.
  unfold built_world, AdaxAPI.__init__.
  destruct (truthy (cfg_token config));
    (destruct (AdaxAPI.needs_refresh _);
     [rewrite refresh_token_run; cbn [snd AdaxAPI.trace];
      destruct (request_token net _ _ _ _); eexists; split; reflexivity
     |exists []; cbn [snd AdaxAPI.trace]; rewrite app_nil_r; split; reflexivity]).
Qed.

(** X24: however [setup_platform] ends, it has sent no POST, at most one
    GET and at most two token requests (one when the client is built,
    one more when the first left it without a token). *)
Theorem setup_calls_are_bounded (config : config) (tr : list event) :
  exists new,
    result_trace (setup_platform net config tr) = (tr ++ new)%list
    /\ calls_within 2 1 new = true.
Proof.
  destruct (configured config) eqn:Hcfg.
  2:{ rewrite (setup_platform_unconfigured net config tr Hcfg).
      eexists. split; reflexivity. }
  rewrite (setup_platform_run net config tr Hcfg). cbv zeta.
  destruct (built_world_calls config tr) as (new0 & Hbuilt & Hnew0).
  destruct (get_rooms_calls (built_world net config tr)) as (new1 & Hget & Hnew1).
  rewrite Hbuilt in Hget.
  assert (Hput : forall new2, calls_within 0 0 new2 = true ->
            exists new, (((tr ++ new0) ++ new1) ++ new2 = tr ++ new)%list
                        /\ calls_within 2 1 new = true).
  { intros new2 Hnew2. exists ((new0 ++ new1) ++ new2)%list. rewrite !app_assoc.
    split; [reflexivity|].
    exact (calls_within_app 2 1 0 0 _ _ (calls_within_app 1 0 1 1 _ _ Hnew0 Hnew1) Hnew2). }
  assert (Hsame : exists new, ((tr ++ new0) ++ new1 = tr ++ new)%list
                              /\ calls_within 2 1 new = true).
  { destruct (Hput [] eq_refl) as (new & Heq & Hnew). rewrite app_nil_r in Heq.
    exists new. split; assumption. }
  revert Hget.
  destruct (py_truthy (cfg_room_id config)); run;
    (destruct (AdaxAPI.get_rooms net (built_world net config tr)) as [[rooms | e] w1];
     cbn [snd result_trace]; intros Hget; [|rewrite Hget; exact Hsame]);
    (destruct (py_iter rooms) as [items | e];
     cbn [result_trace]; [|rewrite Hget; exact Hsame]).
  - destruct (search_room (cfg_room_id config) items VNone) as [found | e];
      cbn [result_trace]; [|rewrite Hget; exact Hsame].
    destruct (py_truthy found).
    + destruct (AdaxClimate.__init__ found); cbn [result_trace];
        rewrite Hget; exact Hsame.
    + cbn [result_trace AdaxAPI.trace]. rewrite Hget. apply Hput. reflexivity.
  - destruct (append_entities items []) as [es | e];
      cbn [result_trace]; [|rewrite Hget; exact Hsame].
    destruct (negb (py_truthy rooms)); cbn [result_trace AdaxAPI.trace];
      rewrite Hget; [apply Hput; reflexivity|exact Hsame].
Qed.

(** X25: with a room id configured, when the rooms returned hold an
    object with that id, the entries before it being other rooms, the
    platform adds exactly one entity, the fresh device of the first such
    object, and logs nothing more. *)
Theorem setup_adds_the_configured_room
  (config : config) (tr : list event) (pre post : list value)
  (items : list (string * value)) (w' : AdaxAPI.world) :
  configured config = true ->
  py_truthy (cfg_room_id config) = true ->
  AdaxAPI.get_rooms net (built_world net config tr)
    = (Return (VList (pre ++ VDict items :: post)), w') ->
  forallb (other_than_configured (cfg_room_id config)) pre = true ->
  py_eq_foreign (dict_get items "id" VNone) (cfg_room_id config) = true ->
  setup_platform net config tr = Configured (Return [fresh_device items]) w'.
Proof.
  intros Hcfg Hfilter Hrooms Hpre Hid.
  rewrite (setup_platform_run net config tr Hcfg). cbv zeta. rewrite Hfilter.
  run. rewrite Hrooms. cbn [py_iter].
  rewrite (search_room_skip _ pre _ VNone Hpre). cbn [search_room]. rewrite Hid.
  rewrite (matching_room_truthy _ items Hfilter Hid). reflexivity.
Qed.

(** X26: with a room id configured, when none of the rooms returned has
    that id (or none is returned), the platform logs that the room was
    not found and adds the empty list of entities. *)
Theorem setup_configured_room_missing
  (config : config) (tr : list event) (rooms : list value) (w' : AdaxAPI.world) :
  configured config = true ->
  py_truthy (cfg_room_id config) = true ->
  AdaxAPI.get_rooms net (built_world net config tr) = (Return (VList rooms), w') ->
  forallb (other_than_configured (cfg_room_id config)) rooms = true ->
  setup_platform net config tr =
  Configured (Return [])
    {| AdaxAPI.client := AdaxAPI.client w';
       AdaxAPI.trace :=
         AdaxAPI.trace w'
         ++ [LogError "Inget rum med id %s hittades!" [ArgValue (cfg_room_id config)]] |}.
Proof.
  intros Hcfg Hfilter Hrooms Hother.
  rewrite (setup_platform_run net config tr Hcfg). cbv zeta. rewrite Hfilter.
  run. rewrite Hrooms. cbn [py_iter].
  rewrite <- (app_nil_r rooms), (search_room_skip _ rooms [] VNone Hother).
  reflexivity.
Qed.


(** X28: without a room id, one returned entry that is no object makes
    the platform raise AttributeError: no entity is added, not even for
    the rooms before it. *)
Theorem setup_discovery_entry_not_an_object
  (config : config) (tr : list event) (rooms : list value) (w' : AdaxAPI.world) :
  configured config = true ->
  py_truthy (cfg_room_id config) = false ->
  AdaxAPI.get_rooms net (built_world net config tr) = (Return (VList rooms), w') ->
  existsb (fun room => negb (is_dict room)) rooms = true ->
  setup_platform net config tr = Configured (Raise AttributeError) w'.
Proof.
  intros Hcfg Hfilter Hrooms Hbad.
  rewrite (setup_platform_run net config tr Hcfg). cbv zeta. rewrite Hfilter.
  run. rewrite Hrooms. cbn [py_iter].
  rewrite (append_entities_bad rooms [] Hbad). reflexivity.
Qed.

(** X29: with a room id configured the platform never adds more than one
    entity, and the room id of the one it adds equals the configured
    one. *)
Theorem setup_configured_room_at_most_once
  (config : config) (tr : list event) (entities : list AdaxClimate.t) (w : AdaxAPI.world) :
  py_truthy (cfg_room_id config) = true ->
  setup_platform net config tr = Configured (Return entities) w ->
  (List.length entities <= 1)%nat
  /\ Forall (fun d => py_eq_foreign (AdaxClimate._room_id d) (cfg_room_id config) = true) entities.
Proof.
  intros Hfilter Hsetup.
  destruct (configured config) eqn:Hcfg.
  2:{ rewrite (setup_platform_unconfigured net config tr Hcfg) in Hsetup.
      discriminate Hsetup. }
  rewrite (setup_platform_run net config tr Hcfg) in Hsetup. cbv zeta in Hsetup.
  rewrite Hfilter in Hsetup. revert Hsetup. run.
  destruct (AdaxAPI.get_rooms net (built_world net config tr)) as [[rooms | e] w1];
    [|discriminate].
  destruct (py_iter rooms) as [items | e]; [|discriminate].
  destruct (search_room (cfg_room_id config) items VNone) as [found | e] eqn:Hfound;
    [|discriminate].
  destruct (search_room_found _ _ _ Hfound) as [-> | (its & -> & Hid)].
  - cbn [py_truthy]. intros H. injection H as <- _. split; [cbn; lia|constructor].
  - rewrite (matching_room_truthy _ its Hfilter Hid), device_init_object.
    intros H. injection H as <- _. split; [cbn; lia|].
    constructor; [exact Hid|constructor].
Qed.

(** X30: every entity that the platform adds is a fresh device: mode
    HEAT, no current and no target temperature until its first poll. *)
Theorem setup_adds_fresh_devices
  (config : config) (tr : list event) (entities : list AdaxClimate.t) (w : AdaxAPI.world) :
  setup_platform net config tr = Configured (Return entities) w ->
  forallb is_fresh entities = true.
Proof.
  intros Hsetup.
  destruct (configured config) eqn:Hcfg.
  2:{ rewrite (setup_platform_unconfigured net config tr Hcfg) in Hsetup.
      discriminate Hsetup. }
  rewrite (setup_platform_run net config tr Hcfg) in Hsetup. cbv zeta in Hsetup.
  revert Hsetup.
  destruct (py_truthy (cfg_room_id config)); run;
    (destruct (AdaxAPI.get_rooms net (built_world net config tr)) as [[rooms | e] w1];
     [|discriminate]);
    (destruct (py_iter rooms) as [items | e]; [|discriminate]).
  - destruct (search_room (cfg_room_id config) items VNone) as [found | e];
      [|discriminate].
    destruct (py_truthy found); [|intros H; injection H as <- _; reflexivity].
    destruct (AdaxClimate.__init__ found) as [d | e] eqn:Hd; [|discriminate].
    intros H. injection H as <- _. cbn [forallb].
    rewrite (device_init_fresh _ _ Hd). reflexivity.
  - destruct (append_entities items []) as [es | e] eqn:Hes; [|discriminate].
    destruct (append_entities_spec _ _ _ Hes) as (ds & -> & Hds).
    intros H.
    assert (Hent : entities = ds).
    { destruct (negb (py_truthy rooms)); injection H as <- _; reflexivity. }
    subst entities. clear H Hes.
    induction Hds as [|room d rooms' ds' Hd _ IH]; [reflexivity|].
    cbn [forallb]. rewrite (device_init_fresh _ _ Hd). exact IH.
Qed.

End PlatformDiscovery.

(** ** Requests without a token *)

Section WithoutToken.

Variable net : network.
Variable float_of_str : string -> option float.

(** X3: when no token is there after the refresh attempt,
    [AdaxAPI.set_temperature] returns False for every temperature
    argument, even one that cannot be converted.  The whole call sends no
    GET and no POST and at most one token request, that of the refresh
    attempt, and its last act is to log that there is no token. *)
Theorem set_temperature_without_token
  (room_id temperature : value) (w : AdaxAPI.world) :
  truthy (AdaxAPI._token (AdaxAPI.client (after_refresh net w))) = false ->
  exists new,
    AdaxAPI.set_temperature net float_of_str room_id temperature w =
    (Return false,
     {| AdaxAPI.client := AdaxAPI.client (after_refresh net w);
        AdaxAPI.trace :=
          AdaxAPI.trace w
          ++ new
          ++ [LogError "Inget giltigt token, kontrollerna kan inte utföras!" []] |})
    /\ calls_within 1 0 new = true.
Proof.
  intros Htok. rewrite set_temperature_run. cbv zeta. rewrite Htok. cbn [negb].
  destruct (after_refresh_calls net w) as (new & Htrace & Hnew).
  exists new. rewrite Htrace, <- app_assoc. split; [reflexivity|exact Hnew].
Qed.

(** X21: when no token is there after the refresh attempt, the device's
    [set_temperature] returns to the host without an error for every
    temperature it is given, and the device is as before.  The whole
    call sends no GET and no POST and at most one token request, and its
    last act is to log that there is no token. *)
Theorem set_target_without_token
  (kwargs : list (string * value)) (st : AdaxClimate.state) (t : value) :
  dict_get kwargs "temperature" VNone = t ->
  t <> VNone ->
  truthy (AdaxAPI._token (AdaxAPI.client (after_refresh net (AdaxClimate.world st)))) = false ->
  exists new,
    AdaxClimate.set_temperature net float_of_str kwargs st =
    (Return tt,
     {| AdaxClimate.self := AdaxClimate.self st;
        AdaxClimate.world :=
          {| AdaxAPI.client := AdaxAPI.client (after_refresh net (AdaxClimate.world st));
             AdaxAPI.trace :=
               AdaxAPI.trace (AdaxClimate.world st)
               ++ new
               ++ [LogError "Inget giltigt token, kontrollerna kan inte utföras!" []] |} |})
    /\ calls_within 1 0 new = true.
Proof.
  intros Ht Hpresent Htok.
  rewrite (set_target_run net float_of_str kwargs st t Ht Hpresent).
  rewrite set_temperature_run. cbv zeta. rewrite Htok. cbn [negb].
  destruct (after_refresh_calls net (AdaxClimate.world st)) as (new & Htrace & Hnew).
  exists new. rewrite Htrace, <- app_assoc. split; [reflexivity|exact Hnew].
Qed.

End WithoutToken.

(** ** More concrete runs *)

(** A set point that the cloud refuses: False, and the token is kept. *)
Lemma set_temperature_true_iff_post_ok_run :
  fst (AdaxAPI.set_temperature net_rejecting no_text_floats (VInt 5) (VFloat f21_5) secret_world)
    = Return false
  /\ AdaxAPI.client
       (snd (AdaxAPI.set_temperature net_rejecting no_text_floats (VInt 5) (VFloat f21_5)
               secret_world))
     = client_of (Some "secret") None None.
Proof.
  exact (set_temperature_true_iff_post_ok net_rejecting no_text_floats
           (VInt 5) (VFloat f21_5) secret_world 2150 eq_refl eq_refl).
Defined.

(** No connection, and a temperature that is no number: one token
    request, its error, and the error of the missing token. *)
Lemma set_temperature_without_token_run :
  exists new,
    AdaxAPI.set_temperature net_down no_text_floats (VInt 5) (VStr "warm") user_world =
    (Return false,
     {| AdaxAPI.client := client_of None (Some "user") (Some "pw");
        AdaxAPI.trace :=
          []
          ++ new
          ++ [LogError "Inget giltigt token, kontrollerna kan inte utföras!" []] |})
    /\ calls_within 1 0 new = true.
Proof.
  exact (set_temperature_without_token net_down no_text_floats
           (VInt 5) (VStr "warm") user_world eq_refl).
Defined.

(** A token that the cloud refuses on every request stays in place. *)
Lemma requests_keep_a_held_token_run :
  AdaxAPI.client (snd (AdaxAPI.get_rooms net_unauthorized secret_world))
    = client_of (Some "secret") None None
  /\ AdaxAPI.client
       (snd (AdaxAPI.set_temperature net_unauthorized no_text_floats (VInt 5) (VInt 21)
               secret_world))
     = client_of (Some "secret") None None.
Proof.
  exact (requests_keep_a_held_token net_unauthorized no_text_floats
           (VInt 5) (VInt 21) secret_world eq_refl).
Defined.

Lemma get_rooms_sends_granted_token_run :
  exists rooms log,
    AdaxAPI.get_rooms (net_serving (VList [room5])) user_world =
    (Return rooms,
     {| AdaxAPI.client := client_of (Some "granted") (Some "user") (Some "pw");
        AdaxAPI.trace :=
          [] ++ RequestToken token_url (Some "user") (Some "pw")
             :: LogDebug "Token erhållen: %s" [ArgToken (Some "granted")]
             :: HttpGet content_url [("Authorization", "Bearer granted")]
             :: log |}).
Proof.
  refine (get_rooms_sends_granted_token (net_serving (VList [room5])) user_world "granted"
            eq_refl eq_refl _).
  discriminate.
Defined.

Lemma get_rooms_after_failed_exchange_run :
  AdaxAPI.get_rooms net_down user_world =
  (Return (VList []),
   {| AdaxAPI.client := client_of None (Some "user") (Some "pw");
      AdaxAPI.trace :=
        [RequestToken token_url (Some "user") (Some "pw");
         LogError "Fel vid erhållande av token: %s" [ArgError (LibraryError "ConnectionError")];
         LogError "Inget giltigt token, kontrollera autentiseringsuppgifterna!" []] |})
  /\ AdaxAPI.needs_refresh (client_of None (Some "user") (Some "pw")) = true.
Proof.
  exact (get_rooms_after_failed_exchange net_down user_world
           (LibraryError "ConnectionError") eq_refl eq_refl).
Defined.

Lemma get_rooms_after_empty_grant_run :
  AdaxAPI.get_rooms net_granting_nothing user_world =
  (Return (VList []),
   {| AdaxAPI.client := client_of None (Some "user") (Some "pw");
      AdaxAPI.trace :=
        [RequestToken token_url (Some "user") (Some "pw");
         LogDebug "Token erhållen: %s" [ArgToken None];
         LogError "Inget giltigt token, kontrollera autentiseringsuppgifterna!" []] |}).
Proof.
  exact (get_rooms_after_empty_grant net_granting_nothing user_world None
           eq_refl eq_refl eq_refl).
Defined.

(** A body with "rooms": null gives None, not a list. *)
Lemma get_rooms_returns_rooms_member_run :
  AdaxAPI.get_rooms (net_serving VNone) secret_world = (Return VNone, secret_world_after_get).
Proof.
  exact (get_rooms_returns_rooms_member (net_serving VNone) secret_world
           (ok_response (VDict [("rooms", VNone)])) [("rooms", VNone)]
           eq_refl eq_refl eq_refl eq_refl).
Defined.

(** A body that is the list of rooms itself. *)
Lemma get_rooms_body_not_an_object_run :
  AdaxAPI.get_rooms (net_answering (VList [room5])) secret_world =
  (Return (VList []),
   {| AdaxAPI.client := client_of (Some "secret") None None;
      AdaxAPI.trace :=
        [HttpGet content_url [("Authorization", "Bearer secret")];
         LogError "Fel vid hämtning av rum: %s" [ArgError AttributeError]] |}).
Proof.
  exact (get_rooms_body_not_an_object (net_answering (VList [room5])) secret_world
           (ok_response (VList [room5])) (VList [room5])
           eq_refl eq_refl eq_refl eq_refl eq_refl).
Defined.

(** The bath served after the hall and before an entry that is no
    object. *)
Lemma update_reads_first_match_run :
  AdaxClimate.update (net_serving (VList [room7; VDict bath5; VNone])) no_text_floats
    (state5 secret_world) =
  (Return tt,
   {| AdaxClimate.self :=
        {| AdaxClimate._room := VDict [("id", VInt 5)];
           AdaxClimate._room_id := VInt 5;
           AdaxClimate._name := AdaxElement (VInt 5);
           AdaxClimate._current_temperature := VFloat (fdiv (float_of_Z 1950) (float_of_Z 100));
           AdaxClimate._target_temperature := VFloat (fdiv (float_of_Z 2000) (float_of_Z 100));
           AdaxClimate._hvac_mode := HVAC_MODE_HEAT |};
      AdaxClimate.world := secret_world_after_get |}).
Proof.
  exact (update_reads_first_match (net_serving (VList [room7; VDict bath5; VNone]))
           no_text_floats (state5 secret_world) [room7] [VNone] bath5 secret_world_after_get
           (float_of_Z 1950) (float_of_Z 2000)
           eq_refl eq_refl eq_refl eq_refl eq_refl eq_refl eq_refl).
Defined.

(** A room whose temperature is null. *)
Lemma update_bad_temperature_aborts_run :
  AdaxClimate.update
    (net_serving (VList [VDict [("id", VInt 5); ("temperature", VNone);
                                ("targetTemperature", VInt 2200)]]))
    no_text_floats (state5 secret_world)
  = (Raise TypeError, state5 secret_world_after_get).
Proof.
  exact (update_bad_temperature_aborts
           (net_serving (VList [VDict [("id", VInt 5); ("temperature", VNone);
                                       ("targetTemperature", VInt 2200)]]))
           no_text_floats (state5 secret_world) [] []
           [("id", VInt 5); ("temperature", VNone); ("targetTemperature", VInt 2200)]
           secret_world_after_get TypeError eq_refl eq_refl eq_refl eq_refl eq_refl).
Defined.

(** A room whose target is text that is no number. *)
Lemma update_bad_target_is_partial_run :
  AdaxClimate.update
    (net_serving (VList [VDict [("id", VInt 5); ("temperature", VInt 2137);
                                ("targetTemperature", VStr "high")]]))
    no_text_floats (state5 secret_world)
  = (Raise ValueError,
     {| AdaxClimate.self :=
          {| AdaxClimate._room := VDict [("id", VInt 5)];
             AdaxClimate._room_id := VInt 5;
             AdaxClimate._name := AdaxElement (VInt 5);
             AdaxClimate._current_temperature := VFloat f21_37;
             AdaxClimate._target_temperature := VNone;
             AdaxClimate._hvac_mode := HVAC_MODE_HEAT |};
        AdaxClimate.world := secret_world_after_get |}).
Proof.
  exact (update_bad_target_is_partial
           (net_serving (VList [VDict [("id", VInt 5); ("temperature", VInt 2137);
                                       ("targetTemperature", VStr "high")]]))
           no_text_floats (state5 secret_world) [] []
           [("id", VInt 5); ("temperature", VInt 2137); ("targetTemperature", VStr "high")]
           secret_world_after_get (float_of_Z 2137) ValueError
           eq_refl eq_refl eq_refl eq_refl eq_refl eq_refl eq_refl).
Defined.

(** A body with "rooms": null. *)
Lemma update_rooms_not_iterable_run :
  TypeError = TypeError
  /\ AdaxClimate.update (net_serving VNone) no_text_floats (state5 secret_world)
     = (Raise TypeError, state5 secret_world_after_get).
Proof.
  exact (update_rooms_not_iterable (net_serving VNone) no_text_floats
           (state5 secret_world) VNone secret_world_after_get TypeError eq_refl eq_refl).
Defined.

(** A number among the rooms, before room 5. *)
Lemma update_entry_not_an_object_run :
  AdaxClimate.update (net_serving (VList [room7; VInt 3; room5])) no_text_floats
    (state5 secret_world)
  = (Raise AttributeError, state5 secret_world_after_get).
Proof.
  exact (update_entry_not_an_object (net_serving (VList [room7; VInt 3; room5]))
           no_text_floats (state5 secret_world) [room7] [room5] (VInt 3)
           secret_world_after_get eq_refl eq_refl eq_refl).
Defined.

(** The attic, which has no id, takes the temperature of an entry that
    has none either. *)
Lemma update_matches_entry_without_id_run :
  AdaxClimate.update
    (net_serving (VList [room7; VDict [("temperature", VInt 1800)]])) no_text_floats
    {| AdaxClimate.self := attic; AdaxClimate.world := secret_world |}
  = (Return tt,
     {| AdaxClimate.self :=
          {| AdaxClimate._room := VDict [("name", VStr "Attic")];
             AdaxClimate._room_id := VNone;
             AdaxClimate._name := NameOf (VStr "Attic");
             AdaxClimate._current_temperature :=
               VFloat (fdiv (float_of_Z 1800) (float_of_Z 100));
             AdaxClimate._target_temperature := VNone;
             AdaxClimate._hvac_mode := HVAC_MODE_HEAT |};
        AdaxClimate.world := secret_world_after_get |}).
Proof.
  exact (update_matches_entry_without_id
           (net_serving (VList [room7; VDict [("temperature", VInt 1800)]])) no_text_floats
           {| AdaxClimate.self := attic; AdaxClimate.world := secret_world |}
           [room7] [] [("temperature", VInt 1800)] secret_world_after_get (float_of_Z 1800)
           eq_refl eq_refl eq_refl eq_refl eq_refl eq_refl eq_refl).
Defined.

(** A set point that is text. *)
Lemma set_target_bad_temperature_raises_run :
  AdaxClimate.set_temperature (net_serving (VList [room5])) no_text_floats
    [("temperature", VStr "warm")] (state5 secret_world)
  = (Raise ValueError, state5 secret_world).
Proof.
  refine (set_target_bad_temperature_raises (net_serving (VList [room5])) no_text_floats
            [("temperature", VStr "warm")] (state5 secret_world) (VStr "warm") ValueError
            eq_refl _ eq_refl eq_refl).
  discriminate.
Defined.

(** A set point on a client whose exchange fails. *)
Lemma set_target_without_token_run :
  exists new,
    AdaxClimate.set_temperature net_down no_text_floats
      [("temperature", VFloat f21_5)] (state5 user_world)
    = (Return tt,
       {| AdaxClimate.self := device5;
          AdaxClimate.world :=
            {| AdaxAPI.client := client_of None (Some "user") (Some "pw");
               AdaxAPI.trace :=
                 []
                 ++ new
                 ++ [LogError "Inget giltigt token, kontrollerna kan inte utföras!" []] |} |})
    /\ calls_within 1 0 new = true.
Proof.
  refine (set_target_without_token net_down no_text_floats
            [("temperature", VFloat f21_5)] (state5 user_world)
            (VFloat f21_5) eq_refl _ eq_refl).
  discriminate.
Defined.

(** The integer 21 is stored as given and sent as 2100. *)
Lemma set_target_accepted_run :
  AdaxClimate.set_temperature (net_serving (VList [room5])) no_text_floats
    [("temperature", VInt 21)] (state5 secret_world)
  = (Return tt,
     {| AdaxClimate.self :=
          {| AdaxClimate._room := VDict [("id", VInt 5)];
             AdaxClimate._room_id := VInt 5;
             AdaxClimate._name := AdaxElement (VInt 5);
             AdaxClimate._current_temperature := VNone;
             AdaxClimate._target_temperature := VInt 21;
             AdaxClimate._hvac_mode := HVAC_MODE_HEAT |};
        AdaxClimate.world :=
          {| AdaxAPI.client := client_of (Some "secret") None None;
             AdaxAPI.trace :=
               [HttpPost control_url (control_payload (VInt 5) 2100)
                         [("Authorization", "Bearer secret")];
                ScheduleUpdateHaState] |} |}).
Proof.
  refine (set_target_accepted (net_serving (VList [room5])) no_text_floats
            [("temperature", VInt 21)] (state5 secret_world) (VInt 21) 2100
            eq_refl _ eq_refl eq_refl eq_refl).
  discriminate.
Defined.

(** A platform set up for room 5. *)
Lemma setup_adds_the_configured_room_run :
  setup_platform (net_serving (VList [room7; VDict bath5; room5]))
    (config_of (Some "secret") None None (VInt 5)) []
  = Configured (Return [fresh_device bath5]) secret_world_after_get.
Proof.
  exact (setup_adds_the_configured_room (net_serving (VList [room7; VDict bath5; room5]))
           (config_of (Some "secret") None None (VInt 5)) [] [room7] [room5] bath5
           secret_world_after_get eq_refl eq_refl eq_refl eq_refl eq_refl).
Defined.

(** A platform set up for a room 9 that the cloud does not have. *)
Lemma setup_configured_room_missing_run :
  setup_platform (net_serving (VList [room7; room5]))
    (config_of (Some "secret") None None (VInt 9)) []
  = Configured (Return [])
      {| AdaxAPI.client := client_of (Some "secret") None None;
         AdaxAPI.trace :=
           [HttpGet content_url [("Authorization", "Bearer secret")];
            LogError "Inget rum med id %s hittades!" [ArgValue (VInt 9)]] |}.
Proof.
  exact (setup_configured_room_missing (net_serving (VList [room7; room5]))
           (config_of (Some "secret") None None (VInt 9)) [] [room7; room5]
           secret_world_after_get eq_refl eq_refl eq_refl eq_refl).
Defined.


(** A text among the rooms. *)
Lemma setup_discovery_entry_not_an_object_run :
  setup_platform (net_serving (VList [room7; VStr "room"]))
    (config_of (Some "secret") None None VNone) []
  = Configured (Raise AttributeError) secret_world_after_get.
Proof.
  exact (setup_discovery_entry_not_an_object (net_serving (VList [room7; VStr "room"]))
           (config_of (Some "secret") None None VNone) [] [room7; VStr "room"]
           secret_world_after_get eq_refl eq_refl eq_refl eq_refl).
Defined.

(** Room 5 served twice is added once. *)
Lemma setup_configured_room_at_most_once_run :
  (List.length [fresh_device [("id", VInt 5); ("temperature", VInt 2137);
                              ("targetTemperature", VInt 2200)]] <= 1)%nat
  /\ Forall (fun d => py_eq_foreign (AdaxClimate._room_id d) (VInt 5) = true)
            [fresh_device [("id", VInt 5); ("temperature", VInt 2137);
                           ("targetTemperature", VInt 2200)]].
Proof.
  exact (setup_configured_room_at_most_once (net_serving (VList [room5; room5]))
           (config_of (Some "secret") None None (VInt 5)) []
           [fresh_device [("id", VInt 5); ("temperature", VInt 2137);
                          ("targetTemperature", VInt 2200)]]
           secret_world_after_get eq_refl eq_refl).
Defined.

(** The devices of the hall and of room 5 as the platform adds them. *)
Lemma setup_adds_fresh_devices_run :
  forallb is_fresh
    [fresh_device [("id", VInt 7); ("name", VStr "Hall"); ("temperature", VInt 1850)];
     fresh_device [("id", VInt 5); ("temperature", VInt 2137);
                   ("targetTemperature", VInt 2200)]] = true.
Proof.
  exact (setup_adds_fresh_devices (net_serving (VList [room7; room5]))
           (config_of None (Some "user") (Some "pw") VNone) []
           [fresh_device [("id", VInt 7); ("name", VStr "Hall"); ("temperature", VInt 1850)];
            fresh_device [("id", VInt 5); ("temperature", VInt 2137);
                          ("targetTemperature", VInt 2200)]]
           {| AdaxAPI.client := client_of (Some "granted") (Some "user") (Some "pw");
              AdaxAPI.trace :=
                [RequestToken token_url (Some "user") (Some "pw");
                 LogDebug "Token erhållen: %s" [ArgToken (Some "granted")];
                 HttpGet content_url [("Authorization", "Bearer granted")]] |}
           eq_refl).
Defined.

(** A bare NaN is unequal to itself; inside a list the decoder's one
    NaN object is found equal by identity, and a NaN of the
    configuration is not. *)
Lemma nan_comparisons :
  py_eq (VFloat S754_nan) (VFloat S754_nan) = false
  /\ py_eq (VList [VFloat S754_nan]) (VList [VFloat S754_nan]) = true
  /\ py_eq (VDict [("zone", VFloat S754_nan)]) (VDict [("zone", VFloat S754_nan)]) = true
  /\ py_eq_foreign (VList [VFloat S754_nan]) (VList [VFloat S754_nan]) = false.
Proof. repeat split. Qed.

(** A device whose room id is the list [NaN] finds its entry in a later
    response and takes its temperature. *)
Lemma update_matches_list_of_nan :
  AdaxClimate.update
    (net_serving (VList [room7; VDict [("id", VList [VFloat S754_nan]);
                                       ("temperature", VInt 1800)]]))
    no_text_floats
    {| AdaxClimate.self := fresh_device [("id", VList [VFloat S754_nan])];
       AdaxClimate.world := secret_world |}
  = (Return tt,
     {| AdaxClimate.self :=
          {| AdaxClimate._room := VDict [("id", VList [VFloat S754_nan])];
             AdaxClimate._room_id := VList [VFloat S754_nan];
             AdaxClimate._name := AdaxElement (VList [VFloat S754_nan]);
             AdaxClimate._current_temperature :=
               VFloat (fdiv (float_of_Z 1800) (float_of_Z 100));
             AdaxClimate._target_temperature := VNone;
             AdaxClimate._hvac_mode := HVAC_MODE_HEAT |};
        AdaxClimate.world := secret_world_after_get |}).
Proof. vm_compute. reflexivity. Qed.

(** A device whose room id is a bare NaN never finds its entry. *)
Lemma update_never_matches_bare_nan :
  AdaxClimate.update
    (net_serving (VList [VDict [("id", VFloat S754_nan); ("temperature", VInt 1800)]]))
    no_text_floats
    {| AdaxClimate.self := fresh_device [("id", VFloat S754_nan)];
       AdaxClimate.world := secret_world |}
  = (Return tt,
     {| AdaxClimate.self := fresh_device [("id", VFloat S754_nan)];
        AdaxClimate.world := secret_world_after_get |}).
Proof. vm_compute. reflexivity. Qed.
